(** * The test-environment bootstrapper [frontend/src/setupTests.js]

    The module imports the DOM-assertion extension package and then installs
    [clearImmediate] and [setImmediate] on the global object when they are
    missing.  Both shims forward to the identifiers [clearTimeout] and
    [setTimeout], which are resolved on the global object when the shim is
    called.

    The module body and the two function expressions are embedded as
    computations of a small state-and-exception monad over a record that
    describes the JavaScript realm the module runs in.  [setupTests] is the
    module on a global object of ordinary writable properties;
    [setupTests_on] is the module on a global object that can refuse an
    assignment, and agrees with [setupTests] where nothing is refused. *)

From stdpp Require Import gmap strings list fin_maps.
From Stdlib Require Import ZArith NArith.

Open Scope Z_scope.
Set Warnings "-clear-no-such-hyp".

(** ** Values *)

(** What a function that is not part of this module hands back to its
    caller. *)
Inductive result : Type :=
| RUndefined
| RNull
| RBool (b : bool)
| RNum (z : Z)
| RStr (s : string)
| RObj (o : N).

(** Function objects.  A function expression yields a new object every time
    it is evaluated, so the two shims carry the number of the allocation that
    created them: two values are the same reference exactly when they are
    equal. *)
Inductive func : Type :=
| FSetTimeout                  (* the host's timeout-scheduling primitive *)
| FClearTimeout                (* the host's timeout-cancellation primitive *)
| FShimClearImmediate (o : N)  (* function(id) { clearTimeout(id); } *)
| FShimSetImmediate (o : N)    (* function(fn) { return setTimeout(fn, 0); } *)
| FHost (n : N)                (* any other function; its body is not in this module *)
| FHostRet (n : N) (r : result). (* any other function that returns r *)

Inductive value : Type :=
| VUndefined
| VNull
| VBool (b : bool)
| VNum (z : Z)
| VStr (s : string)
| VObj (o : N)
| VFun (f : func).

#[global] Instance result_eq_dec : EqDecision result.
Proof. solve_decision. Defined.

#[global] Instance func_eq_dec : EqDecision func.
Proof. solve_decision. Defined.

#[global] Instance value_eq_dec : EqDecision value.
Proof. solve_decision. Defined.

Definition value_of_result (r : result) : value :=
  match r with
  | RUndefined => VUndefined
  | RNull => VNull
  | RBool b => VBool b
  | RNum z => VNum z
  | RStr s => VStr s
  | RObj o => VObj o
  end.

(** The [typeof] operator. *)
Definition typeof (v : value) : string :=
  match v with
  | VUndefined => "undefined"
  | VNull => "object"
  | VBool _ => "boolean"
  | VNum _ => "number"
  | VStr _ => "string"
  | VObj _ => "object"
  | VFun _ => "function"
  end.

(** The [i]-th actual argument of a call; a missing one reads [undefined]. *)
Definition arg (i : nat) (args : list value) : value :=
  default VUndefined (args !! i).

(** ** The realm *)

Inductive error : Type :=
| ModuleNotFound (specifier : string)
| ReferenceError (identifier : string)
| TypeError
| RangeError.

#[global] Instance error_eq_dec : EqDecision error.
Proof. solve_decision. Defined.

(** What an observer of the realm can see happening, oldest first. *)
Inductive event : Type :=
| EvImport (specifier : string)                   (* import 'specifier' *)
| EvTypeof (k : string)                           (* typeof global.k *)
| EvAssign (k : string) (v : value)               (* global.k = v *)
| EvFire (h : Z) (fn : value) (args : list value) (* the host runs timer h *)
| EvInvoke (n : N) (args : list value)            (* function FHost n or FHostRet n _ is entered *).

#[global] Instance event_eq_dec : EqDecision event.
Proof. solve_decision. Defined.

(** A pending timeout of the host. *)
Record timer : Type := Timer {
  handler : value;
  delay : Z;
  targs : list value
}.

#[global] Instance timer_eq_dec : EqDecision timer.
Proof. solve_decision. Defined.

Record realm : Type := Realm {
  globals : gmap string value;          (* own properties of the global object *)
  next_oid : N;                         (* number of the next function object *)
  timers : gmap Z timer;                (* pending timeouts, by handle *)
  next_handle : Z;                      (* handle of the next timeout *)
  matchers : gset string;               (* matcher registry of the assertion library *)
  packages : gmap string (gset string); (* resolvable packages and what they register *)
  trace : list event
}.

Definition with_globals (g : gmap string value) (s : realm) : realm :=
  Realm g (next_oid s) (timers s) (next_handle s) (matchers s) (packages s) (trace s).
Definition with_next_oid (o : N) (s : realm) : realm :=
  Realm (globals s) o (timers s) (next_handle s) (matchers s) (packages s) (trace s).
Definition with_timers (t : gmap Z timer) (s : realm) : realm :=
  Realm (globals s) (next_oid s) t (next_handle s) (matchers s) (packages s) (trace s).
Definition with_next_handle (h : Z) (s : realm) : realm :=
  Realm (globals s) (next_oid s) (timers s) h (matchers s) (packages s) (trace s).
Definition with_matchers (m : gset string) (s : realm) : realm :=
  Realm (globals s) (next_oid s) (timers s) (next_handle s) m (packages s) (trace s).
Definition with_trace (t : list event) (s : realm) : realm :=
  Realm (globals s) (next_oid s) (timers s) (next_handle s) (matchers s) (packages s) t.

(** ** Computations: state passing with abrupt completion *)

Inductive completion (A : Type) : Type :=
| Normal (a : A)
| Throw (e : error).
Arguments Normal {A} a.
Arguments Throw {A} e.

Definition js (A : Type) : Type := realm → completion A * realm.

#[global] Instance js_ret : MRet js := λ A a s, (Normal a, s).
#[global] Instance js_bind : MBind js := λ A B k m s,
  match m s with
  | (Normal a, s') => k a s'
  | (Throw e, s') => (Throw e, s')
  end.

Definition throw {A : Type} (e : error) : js A := λ s, (Throw e, s).
Definition gets {A : Type} (f : realm → A) : js A := λ s, (Normal (f s), s).
Definition modify (f : realm → realm) : js unit := λ s, (Normal tt, f s).
Definition emit (e : event) : js unit :=
  modify (λ s, with_trace (trace s ++ [e]) s).

(** [global.k] read as a property: a missing property reads [undefined]. *)
Definition get_global (k : string) (s : realm) : value :=
  default VUndefined (globals s !! k).

(** [typeof global.k] *)
Definition typeof_global (k : string) : js string :=
  emit (EvTypeof k);;
  gets (λ s, typeof (get_global k s)).

(** [global.k = v] on a global object that accepts the assignment: the
    property is created or overwritten.  The assignment of strict code to an
    object that can refuse it is [assign_global_on] below. *)
Definition assign_global (k : string) (v : value) : js unit :=
  emit (EvAssign k v);;
  modify (λ s, with_globals (<[k := v]> (globals s)) s).

(** Evaluation of a function expression: a new function object. *)
Definition new_function (mk : N → func) : js value :=
  o ← gets next_oid;
  modify (with_next_oid (N.succ o));;
  mret (VFun (mk o)).

(** A free identifier is looked up on the global object; an unresolvable
    one is a ReferenceError. *)
Definition resolve (x : string) : js value :=
  b ← gets (λ s, globals s !! x);
  match b with
  | Some v => mret v
  | None => throw (ReferenceError x)
  end.

(** ** The host *)

(** Modelled from the spec: the package behind [import '@testing-library/jest-dom']
    is not part of the repository.  Its sole effect is to register additional
    matchers on the shared assertion library; when the package cannot be
    resolved the import fails. *)
Definition import (specifier : string) : js unit :=
  emit (EvImport specifier);;
  p ← gets (λ s, packages s !! specifier);
  match p with
  | Some ms => modify (λ s, with_matchers (matchers s ∪ ms) s)
  | None => throw (ModuleNotFound specifier)
  end.

Definition to_delay (v : value) : Z :=
  match v with
  | VNum z => Z.max 0 z
  | _ => 0
  end.

(** Modelled from the spec: the host's timeout primitives are not part of the
    repository.  [setTimeout(handler, delay, ...args)] registers a timer under
    a fresh handle and returns the handle; nothing runs during the call. *)
Definition host_setTimeout (args : list value) : js value :=
  h ← gets next_handle;
  modify (λ s, with_timers
    (<[h := Timer (arg 0 args) (to_delay (arg 1 args)) (drop 2 args)]> (timers s)) s);;
  modify (with_next_handle (h + 1));;
  mret (VNum h).

(** Modelled from the spec: the host's [clearTimeout(handle)] forgets the
    pending timer with that handle, if there is one, and returns nothing.
    Handles are the numbers [setTimeout] issued.  How a host converts any
    other argument to a handle (a string of digits, a number outside the
    range of handles) is not described: such an argument names no pending
    timer here. *)
Definition host_clearTimeout (args : list value) : js value :=
  match arg 0 args with
  | VNum h => modify (λ s, with_timers (delete h (timers s)) s)
  | _ => mret tt
  end;;
  mret VUndefined.

(** ** The two function expressions of the module *)

Section shims.
(** How a call is carried out from inside a function body. *)
Variable invoke : value → list value → js value.

(** A call [x(args)] of a free identifier [x]. *)
Definition call_ident (x : string) (args : list value) : js value :=
  f ← resolve x; invoke f args.

(** [function(id) { clearTimeout(id); }] *)
Definition clearImmediate_shim (args : list value) : js value :=
  let id := arg 0 args in
  call_ident "clearTimeout" [id];;
  mret VUndefined.

(** [function(fn) { return setTimeout(fn, 0); }] *)
Definition setImmediate_shim (args : list value) : js value :=
  let fn := arg 0 args in
  call_ident "setTimeout" [fn; VNum 0].
End shims.

(** Calling a value with [depth] stack frames left; without a frame the
    engine raises a RangeError, and a value that is not a function cannot be
    called.  The body of a [FHost] or [FHostRet] function is outside this
    module: the call is recorded and returns [undefined], respectively the
    result the function carries. *)
Fixpoint call (depth : nat) (callee : value) (args : list value) : js value :=
  match depth with
  | O => throw RangeError
  | S d =>
      match callee with
      | VFun FSetTimeout => host_setTimeout args
      | VFun FClearTimeout => host_clearTimeout args
      | VFun (FShimClearImmediate _) => clearImmediate_shim (call d) args
      | VFun (FShimSetImmediate _) => setImmediate_shim (call d) args
      | VFun (FHost n) => emit (EvInvoke n args);; mret VUndefined
      | VFun (FHostRet n r) => emit (EvInvoke n args);; mret (value_of_result r)
      | _ => throw TypeError
      end
  end.

(** ** The module body *)

Definition jest_dom : string := "@testing-library/jest-dom".

Definition ensure_clearImmediate : js unit :=
  t ← typeof_global "clearImmediate";
  if decide (t = "undefined") then
    f ← new_function FShimClearImmediate;
    assign_global "clearImmediate" f
  else mret tt.

Definition ensure_setImmediate : js unit :=
  t ← typeof_global "setImmediate";
  if decide (t = "undefined") then
    f ← new_function FShimSetImmediate;
    assign_global "setImmediate" f
  else mret tt.

Definition setupTests : js unit :=
  import jest_dom;;
  ensure_clearImmediate;;
  ensure_setImmediate.

(** ** The module on a global object that can refuse an assignment *)

(** The module is strict code: an assignment [global.k = v] that the global
    object does not accept is a TypeError.  An object refuses to overwrite a
    property that is not writable and, when it is not extensible, to create a
    property it does not have.  The module never changes these attributes, so
    they are given once for a load.  Accessor properties are not covered. *)
Record shape : Type := Shape {
  read_only : gset string;
  extensible : bool
}.

(** An object of writable properties that can get new ones: [assign_global]
    is the assignment to such an object. *)
Definition ordinary : shape := Shape ∅ true.

Definition refuses (sh : shape) (k : string) (s : realm) : bool :=
  match globals s !! k with
  | Some _ => bool_decide (k ∈ read_only sh)
  | None => negb (extensible sh)
  end.

(** [global.k = v] in strict code. *)
Definition assign_global_on (sh : shape) (k : string) (v : value) : js unit :=
  r ← gets (refuses sh k);
  if r : bool then throw TypeError else assign_global k v.

Definition ensure_clearImmediate_on (sh : shape) : js unit :=
  t ← typeof_global "clearImmediate";
  if decide (t = "undefined") then
    f ← new_function FShimClearImmediate;
    assign_global_on sh "clearImmediate" f
  else mret tt.

Definition ensure_setImmediate_on (sh : shape) : js unit :=
  t ← typeof_global "setImmediate";
  if decide (t = "undefined") then
    f ← new_function FShimSetImmediate;
    assign_global_on sh "setImmediate" f
  else mret tt.

Definition setupTests_on (sh : shape) : js unit :=
  import jest_dom;;
  ensure_clearImmediate_on sh;;
  ensure_setImmediate_on sh.

(** A guard that finds [k] undefined will assign to it. *)
Definition wants (k : string) (s : realm) : Prop :=
  typeof (get_global k s) = "undefined".

(** One of the two assignments is wanted and refused. *)
Definition blocked (sh : shape) (s : realm) : Prop :=
  (wants "clearImmediate" s ∧ refuses sh "clearImmediate" s = true)
  ∨ (wants "setImmediate" s ∧ refuses sh "setImmediate" s = true).

(** ** Closed forms of the steps of a load *)

(** Both guards of the module have the same shape. *)
Definition install_if_missing (k : string) (mk : N → func) : js unit :=
  t ← typeof_global k;
  if decide (t = "undefined") then
    f ← new_function mk;
    assign_global k f
  else mret tt.

(** The realm after a guard found the binding missing, and after it found
    the binding present. *)
Definition installed (k : string) (mk : N → func) (s : realm) : realm :=
  Realm (<[k := VFun (mk (next_oid s))]> (globals s)) (N.succ (next_oid s))
        (timers s) (next_handle s) (matchers s) (packages s)
        (trace s ++ [EvTypeof k; EvAssign k (VFun (mk (next_oid s)))]).

Definition checked (k : string) (s : realm) : realm :=
  with_trace (trace s ++ [EvTypeof k]) s.

(** The realm after a guard found the binding missing and the assignment was
    refused: the function object was created and is lost. *)
Definition refused (k : string) (s : realm) : realm :=
  with_trace (trace s ++ [EvTypeof k]) (with_next_oid (N.succ (next_oid s)) s).

Definition install_if_missing_on (sh : shape) (k : string) (mk : N → func) : js unit :=
  t ← typeof_global k;
  if decide (t = "undefined") then
    f ← new_function mk;
    assign_global_on sh k f
  else mret tt.

(** The outcome of a guard on a global object of shape [sh]. *)
Definition guarded_on (sh : shape) (k : string) (mk : N → func) (s : realm)
  : completion unit * realm :=
  if decide (typeof (get_global k s) = "undefined") then
    if refuses sh k s then (Throw TypeError, refused k s)
    else (Normal tt, installed k mk s)
  else (Normal tt, checked k s).

Definition guarded (k : string) (mk : N → func) (s : realm) : realm :=
  if decide (typeof (get_global k s) = "undefined") then installed k mk s
  else checked k s.

(** The realm after the import, in both of its outcomes. *)
Definition imported (ms : gset string) (s : realm) : realm :=
  Realm (globals s) (next_oid s) (timers s) (next_handle s) (matchers s ∪ ms)
        (packages s) (trace s ++ [EvImport jest_dom]).

Definition import_failed (s : realm) : realm :=
  with_trace (trace s ++ [EvImport jest_dom]) s.

(** The keys of the global object that a run of events assigns, in order. *)
Definition assigns (evs : list event) : list string :=
  omap (λ e, match e with EvAssign k _ => Some k | _ => None end) evs.

(** The specifiers that a run of events imports, in order. *)
Definition imports (evs : list event) : list string :=
  omap (λ e, match e with EvImport p => Some p | _ => None end) evs.



(** ** What happens after the module has loaded *)

(** The final realm of a computation, and a computation whose abrupt
    completion is not propagated. *)
Definition exec {A : Type} (m : js A) (s : realm) : realm := (m s).2.
Definition attempt {A : Type} (m : js A) : js unit := λ s, (Normal tt, exec m s).

(** Modelled from the spec: the host's event loop is not part of the
    repository.  When the host runs the pending timer [h] it forgets the
    timer and calls the handler with the arguments given at registration; an
    exception of the handler does not stop the host. *)
Definition fire (depth : nat) (h : Z) : js unit :=
  t ← gets (λ s, timers s !! h);
  match t with
  | Some t =>
      modify (λ s, with_timers (delete h (timers s)) s);;
      emit (EvFire h (handler t) (targs t));;
      attempt (call depth (handler t) (targs t))
  | None => mret tt
  end.

(** Anything that can happen in the realm once the module has loaded: the
    host runs a timer, some code calls a function or assigns a global, or the
    module is loaded again. *)
Inductive action : Type :=
| AFire (depth : nat) (h : Z)
| ACall (depth : nat) (callee : value) (args : list value)
| AAssign (k : string) (v : value)
| ALoad.

Definition perform (a : action) : js unit :=
  match a with
  | AFire depth h => fire depth h
  | ACall depth callee args => attempt (call depth callee args)
  | AAssign k v => assign_global k v
  | ALoad => attempt setupTests
  end.

Definition run (acts : list action) (s : realm) : realm :=
  foldl (λ s a, exec (perform a) s) s acts.

(** The timer [h] has been run by the host. *)
Definition fired (h : Z) (s : realm) : Prop :=
  ∃ fn args, EvFire h fn args ∈ trace s.

(** Everything of a realm but the record of what happened. *)
Definition observable (s : realm) :=
  (globals s, next_oid s, timers s, next_handle s, matchers s, packages s).

(** A property of realms that a computation cannot destroy. *)
Definition preserved {A : Type} (P : realm → Prop) (m : js A) : Prop :=
  ∀ s, P s → P (exec m s).

(** The handle [h] has been issued, is not pending and has not been run. *)
Definition stale (h : Z) (s : realm) : Prop :=
  h < next_handle s ∧ timers s !! h = None ∧ ¬ fired h s.

(** What code running in the realm can tell: everything but the record of
    events and the count of function objects ever created. *)
Definition visible (s : realm) :=
  (globals s, timers s, next_handle s, matchers s, packages s).

(** The realms in which a load on a global object of shape [sh] gets nothing
    done: the package does not resolve, or its matchers are registered and
    each guard that is reached finds its name defined or has its assignment
    refused. *)
Definition idle (sh : shape) (s : realm) : Prop :=
  match packages s !! jest_dom with
  | Some ms =>
      ms ⊆ matchers s
      ∧ (wants "clearImmediate" s → refuses sh "clearImmediate" s = true)
      ∧ (¬ wants "clearImmediate" s → wants "setImmediate" s →
         refuses sh "setImmediate" s = true)
  | None => True
  end.

(** A realm of a jsdom-like host: timeout primitives and the assertion
    package, no immediates. *)
Definition bare_realm : realm :=
  Realm {[ "setTimeout" := VFun FSetTimeout; "clearTimeout" := VFun FClearTimeout ]}
        0%N ∅ 1 ∅ {[ jest_dom := {[ "toHaveTextContent"; "toBeInTheDocument" ]} ]} [].

(** A realm of a host with immediates of its own. *)
Definition native_realm : realm :=
  with_globals (<["setImmediate" := VFun (FHost 1)]>
               (<["clearImmediate" := VFun (FHost 2)]> (globals bare_realm))) bare_realm.

(** A realm in which the assertion package is not installed. *)
Definition broken_realm : realm :=
  Realm (globals bare_realm) 0%N ∅ 1 ∅ ∅ [].

(** A realm whose global object has a non-writable property [setImmediate]
    that reads [undefined]. *)
Definition locked_realm : realm :=
  with_globals (<["setImmediate" := VUndefined]> (globals bare_realm)) bare_realm.

Definition locked : shape := Shape {[ "setImmediate" ]} true.

(** A global object that takes no new properties. *)
Definition sealed : shape := Shape ∅ false.

(** The realms a load has nothing left to do in: the package does not
    resolve, or its matchers are registered and both names are defined. *)
Definition settled (s : realm) : Prop :=
  match packages s !! jest_dom with
  | Some ms =>
      ms ⊆ matchers s
      ∧ typeof (get_global "clearImmediate" s) ≠ "undefined"
      ∧ typeof (get_global "setImmediate" s) ≠ "undefined"
  | None => True
  end.

(** The calls the host made for timer [h] according to a record of events:
    the handler and the arguments of each, oldest first. *)
Definition runs_of (h : Z) (evs : list event) : list (value * list value) :=
  omap (λ e, match e with
             | EvFire h' fn args => if decide (h' = h) then Some (fn, args) else None
             | _ => None
             end) evs.

(** The handle [h] has been issued and is not pending, and the host's calls
    for it so far are [rs]. *)
Definition spent (h : Z) (rs : list (value * list value)) (s : realm) : Prop :=
  h < next_handle s ∧ timers s !! h = None ∧ runs_of h (trace s) = rs.

(** * Properties *)

(** ** The monad, step by step *)

Lemma bind_normal {A B : Type} (m : js A) (k : A → js B) (s s' : realm) (a : A) :
  m s = (Normal a, s') → (m ≫= k) s = k a s'.
Proof. intros H. unfold mbind, js_bind. by rewrite H. Qed.

Lemma bind_throw {A B : Type} (m : js A) (k : A → js B) (s s' : realm) (e : error) :
  m s = (Throw e, s') → (m ≫= k) s = (Throw e, s').
Proof. intros H. unfold mbind, js_bind. by rewrite H. Qed.

Lemma typeof_undefined (v : value) : typeof v = "undefined" ↔ v = VUndefined.
Proof. split; [by destruct v | by intros ->]. Qed.

Lemma typeof_function (f : func) : typeof (VFun f) = "function".
Proof. reflexivity. Qed.

(** Unfolds the primitive computations and runs them. *)
Ltac js_run :=
  unfold install_if_missing, import, typeof_global, assign_global, new_function,
    resolve, emit, gets, modify, throw, get_global,
    with_globals, with_next_oid, with_timers, with_next_handle, with_matchers,
    with_trace, mbind, mret, js_bind, js_ret in *;
  cbn in *.

(** ** One presence guard *)

Lemma ensure_clearImmediate_unfold :
  ensure_clearImmediate = install_if_missing "clearImmediate" FShimClearImmediate.
Proof. reflexivity. Qed.

Lemma ensure_setImmediate_unfold :
  ensure_setImmediate = install_if_missing "setImmediate" FShimSetImmediate.
Proof. reflexivity. Qed.

Lemma install_if_missing_absent (k : string) (mk : N → func) (s : realm) :
  typeof (get_global k s) = "undefined" →
  install_if_missing k mk s = (Normal tt, installed k mk s).
Proof.
  intros H. destruct s as [g o t h m p tr]. unfold installed. js_run.
  rewrite decide_True by done. cbn. by rewrite <- app_assoc.
Qed.

Lemma install_if_missing_present (k : string) (mk : N → func) (s : realm) :
  typeof (get_global k s) ≠ "undefined" →
  install_if_missing k mk s = (Normal tt, checked k s).
Proof.
  intros H. destruct s as [g o t h m p tr]. js_run.
  by rewrite decide_False by done.
Qed.

(** ** The import *)

Lemma import_found (s : realm) (ms : gset string) :
  packages s !! jest_dom = Some ms →
  import jest_dom s = (Normal tt, imported ms s).
Proof.
  intros H. destruct s as [g o t h m p tr]. js_run. by rewrite H.
Qed.

Lemma import_missing (s : realm) :
  packages s !! jest_dom = None →
  import jest_dom s = (Throw (ModuleNotFound jest_dom), import_failed s).
Proof.
  intros H. destruct s as [g o t h m p tr]. js_run. by rewrite H.
Qed.

(** The load as a whole: the import, and then the two guards. *)
Lemma setupTests_missing (s : realm) :
  packages s !! jest_dom = None →
  setupTests s = (Throw (ModuleNotFound jest_dom), import_failed s).
Proof.
  intros H. unfold setupTests.
  by rewrite (bind_throw _ _ _ _ _ (import_missing s H)).
Qed.

Lemma setupTests_found (s : realm) (ms : gset string) :
  packages s !! jest_dom = Some ms →
  setupTests s = (ensure_clearImmediate;; ensure_setImmediate) (imported ms s).
Proof.
  intros H. unfold setupTests.
  by rewrite (bind_normal _ _ _ _ _ (import_found s ms H)).
Qed.

Lemma install_if_missing_guarded (k : string) (mk : N → func) (s : realm) :
  install_if_missing k mk s = (Normal tt, guarded k mk s).
Proof.
  unfold guarded. case_decide.
  - by apply install_if_missing_absent.
  - by apply install_if_missing_present.
Qed.

Lemma guards_run (s : realm) :
  (ensure_clearImmediate;; ensure_setImmediate) s =
  (Normal tt, guarded "setImmediate" FShimSetImmediate
                (guarded "clearImmediate" FShimClearImmediate s)).
Proof.
  rewrite ensure_clearImmediate_unfold, ensure_setImmediate_unfold.
  rewrite (bind_normal _ _ _ _ _ (install_if_missing_guarded _ _ s)).
  apply install_if_missing_guarded.
Qed.

Lemma setupTests_loaded (s : realm) (ms : gset string) :
  packages s !! jest_dom = Some ms →
  setupTests s =
  (Normal tt, guarded "setImmediate" FShimSetImmediate
                (guarded "clearImmediate" FShimClearImmediate (imported ms s))).
Proof. intros H. rewrite (setupTests_found s ms H). apply guards_run. Qed.

(** Case analysis on a load: whether the package resolves and what each
    guard finds. *)
Ltac load_cases s :=
  let Hp := fresh "Hp" in
  unfold exec;
  destruct (packages s !! jest_dom) as [?ms|] eqn:Hp;
  [ rewrite ?(setupTests_loaded s _ Hp); unfold guarded;
    repeat case_decide
  | rewrite ?(setupTests_missing s Hp) ];
  destruct s as [g o t h m p tr];
  unfold installed, checked, imported, import_failed, get_global in *;
  cbn in *.

(** Closes the goals of a case analysis on a load: lookups through the
    bindings a guard wrote, and the events that were added. *)
Ltac load_done :=
  repeat match goal with
  | H : context [<[?k := _]> _ !! ?k] |- _ => rewrite lookup_insert_eq in H
  | H : context [<[?k := _]> _ !! ?k'] |- _ =>
      rewrite (lookup_insert_ne _ k k') in H by done
  end;
  rewrite ?lookup_insert_ne by done;
  rewrite ?lookup_insert_eq;
  rewrite <- ?app_assoc; cbn in *;
  try done; try congruence.

(** ** Bindings that exist are left alone *)

(** C3: when [setImmediate] (respectively [clearImmediate]) is defined on the
    global object before the load, the load leaves that binding identical, by
    reference, to its value before the load, and performs no assignment to
    it. *)
Theorem defined_binding_is_kept (s : realm) (k : string) :
  k = "setImmediate" ∨ k = "clearImmediate" →
  typeof (get_global k s) ≠ "undefined" →
  globals (exec setupTests s) !! k = globals s !! k
  ∧ get_global k (exec setupTests s) = get_global k s
  ∧ ∃ evs, trace (exec setupTests s) = trace s ++ evs ∧ k ∉ assigns evs.
Proof.
  intros Hk Hdef. load_cases s.
  all: destruct Hk; subst k; load_done.
  all: split_and!; try done.
  all: eexists; split; [reflexivity | cbn; set_solver].
Qed.

Lemma defined_binding_is_kept_witness :
  globals (exec setupTests native_realm) !! "setImmediate"
  = globals native_realm !! "setImmediate"
  ∧ get_global "setImmediate" (exec setupTests native_realm)
    = get_global "setImmediate" native_realm
  ∧ ∃ evs, trace (exec setupTests native_realm) = trace native_realm ++ evs
           ∧ "setImmediate" ∉ assigns evs.
Proof.
  apply (defined_binding_is_kept native_realm "setImmediate");
    [by left | by vm_compute].
Defined.

(** ** The order of the operations of a load *)



(** ** What a load writes *)

(** C9: a load writes at most the binding [clearImmediate], the binding
    [setImmediate] and the matcher registry, each at most once; every other
    binding of the global object, the pending timers, the handle counter and
    the installed packages are as before.  The only other change is the
    allocation of the function objects that were installed. *)
Theorem load_writes_three_places (s : realm) :
  ∃ evs,
    trace (exec setupTests s) = trace s ++ evs
    ∧ assigns evs `sublist_of` ["clearImmediate"; "setImmediate"]
    ∧ imports evs = [jest_dom]
    ∧ (∀ k, k ≠ "clearImmediate" → k ≠ "setImmediate" →
            globals (exec setupTests s) !! k = globals s !! k)
    ∧ (∀ k, k ∈ ["clearImmediate"; "setImmediate"] → k ∉ assigns evs →
            globals (exec setupTests s) !! k = globals s !! k)
    ∧ (matchers (exec setupTests s) = matchers s
       ∨ ∃ ms, packages s !! jest_dom = Some ms
               ∧ matchers (exec setupTests s) = matchers s ∪ ms)
    ∧ timers (exec setupTests s) = timers s
    ∧ next_handle (exec setupTests s) = next_handle s
    ∧ packages (exec setupTests s) = packages s
    ∧ next_oid (exec setupTests s)
      = (next_oid s + N.of_nat (length (assigns evs)))%N.
Proof.
  load_cases s; load_done.
  all: eexists; split; [reflexivity |]; cbn.
  all: split_and!; try done; try (repeat constructor; fail); try lia.
  all: try (intros k ? ?; load_done; fail).
  all: try (intros k Hk Hnot; set_unfold; destruct_or!; subst k; load_done;
            naive_solver).
  all: try (right; eexists; done).
  all: try (left; done).
Qed.

(** ** Loading again *)

Lemma guarded_present (k : string) (mk : N → func) (s : realm) :
  typeof (get_global k s) ≠ "undefined" → guarded k mk s = checked k s.
Proof. intros H. unfold guarded. by rewrite decide_False. Qed.

Lemma guarded_defines (k : string) (mk : N → func) (s : realm) :
  typeof (get_global k (guarded k mk s)) ≠ "undefined".
Proof.
  unfold guarded. case_decide as H; destruct s; unfold get_global in *; cbn in *.
  - by rewrite lookup_insert_eq.
  - done.
Qed.

Lemma guarded_other (k k' : string) (mk : N → func) (s : realm) :
  k ≠ k' → get_global k' (guarded k mk s) = get_global k' s.
Proof.
  intros Hne. unfold guarded. case_decide; destruct s; unfold get_global; cbn.
  - by rewrite lookup_insert_ne.
  - done.
Qed.

Lemma guarded_frame (k : string) (mk : N → func) (s : realm) :
  timers (guarded k mk s) = timers s
  ∧ next_handle (guarded k mk s) = next_handle s
  ∧ matchers (guarded k mk s) = matchers s
  ∧ packages (guarded k mk s) = packages s.
Proof. unfold guarded. by case_decide; destruct s. Qed.

(** C5: a second load ends like the first and leaves everything but the
    record of events as the first load left it: the import and both presence
    checks run again, nothing is assigned, and no error is raised that the
    first load did not raise. *)
Theorem load_twice_is_load_once (s : realm) :
  let s1 := exec setupTests s in
  let s2 := exec setupTests s1 in
  observable s2 = observable s1
  ∧ (setupTests s1).1 = (setupTests s).1
  ∧ ∃ evs, trace s2 = trace s1 ++ evs
           ∧ assigns evs = []
           ∧ evs = match packages s !! jest_dom with
                   | Some _ => [EvImport jest_dom; EvTypeof "clearImmediate";
                                EvTypeof "setImmediate"]
                   | None => [EvImport jest_dom]
                   end.
Proof.
  cbn zeta. unfold exec.
  destruct (packages s !! jest_dom) as [ms|] eqn:Hp.
  - rewrite (setupTests_loaded s ms Hp). cbn [fst snd].
    set (sc := guarded "clearImmediate" FShimClearImmediate (imported ms s)).
    set (s1 := guarded "setImmediate" FShimSetImmediate sc).
    assert (Hp1 : packages s1 !! jest_dom = Some ms).
    { unfold s1, sc. rewrite !(proj2 (proj2 (proj2 (guarded_frame _ _ _)))).
      by destruct s. }
    assert (Hm : matchers s1 = matchers s ∪ ms).
    { unfold s1, sc. rewrite !(proj1 (proj2 (proj2 (guarded_frame _ _ _)))).
      by destruct s. }
    assert (Hc : typeof (get_global "clearImmediate" (imported ms s1))
                 ≠ "undefined").
    { replace (get_global "clearImmediate" (imported ms s1))
        with (get_global "clearImmediate" s1) by by destruct s1.
      unfold s1. rewrite guarded_other by done. apply guarded_defines. }
    assert (Hs : typeof (get_global "setImmediate"
                   (checked "clearImmediate" (imported ms s1))) ≠ "undefined").
    { replace (get_global "setImmediate"
                 (checked "clearImmediate" (imported ms s1)))
        with (get_global "setImmediate" s1) by by destruct s1.
      apply guarded_defines. }
    rewrite (setupTests_loaded s1 ms Hp1).
    rewrite (guarded_present "clearImmediate" _ _ Hc).
    rewrite (guarded_present "setImmediate" _ _ Hs).
    clearbody s1. destruct s1 as [g o t h m p tr]. cbn in Hm. subst m.
    unfold observable, checked, imported. cbn.
    assert (matchers s ∪ ms ∪ ms = matchers s ∪ ms) as -> by (clear; set_solver).
    split_and!; [done | done |].
    eexists. split_and!; [by rewrite <- !app_assoc | done | done].
  - rewrite (setupTests_missing s Hp). cbn [fst snd].
    rewrite setupTests_missing by by destruct s.
    destruct s. unfold import_failed; cbn.
    split_and!; [done | done | eexists; done].
Qed.

(** ** What a load installs *)

Lemma load_installs_setImmediate (s : realm) (ms : gset string) :
  packages s !! jest_dom = Some ms →
  typeof (get_global "setImmediate" s) = "undefined" →
  (setupTests s).1 = Normal tt
  ∧ ∃ o, globals (exec setupTests s) !! "setImmediate"
         = Some (VFun (FShimSetImmediate o)).
Proof.
  intros Hp Hs. load_cases s; load_done.
  all: split; [done | eexists; load_done].
Qed.

Lemma load_installs_clearImmediate (s : realm) (ms : gset string) :
  packages s !! jest_dom = Some ms →
  typeof (get_global "clearImmediate" s) = "undefined" →
  (setupTests s).1 = Normal tt
  ∧ ∃ o, globals (exec setupTests s) !! "clearImmediate"
         = Some (VFun (FShimClearImmediate o)).
Proof.
  intros Hp Hs. load_cases s; load_done.
  all: split; [done | eexists; load_done].
Qed.

(** Loading does not touch the bindings of the timeout primitives. *)
Lemma load_keeps_binding (s : realm) (k : string) :
  k ≠ "clearImmediate" → k ≠ "setImmediate" →
  globals (exec setupTests s) !! k = globals s !! k.
Proof. intros Hc Hs. load_cases s; load_done. Qed.

(** ** Calls of the shims *)

Lemma call_ident_bound (inv : value → list value → js value) (x : string)
    (v : value) (args : list value) (s : realm) :
  globals s !! x = Some v → call_ident inv x args s = inv v args s.
Proof. intros H. unfold call_ident. js_run. by rewrite H. Qed.

Lemma host_setTimeout_run (f : value) (s : realm) :
  host_setTimeout [f; VNum 0] s
  = (Normal (VNum (next_handle s)),
     with_next_handle (next_handle s + 1)
       (with_timers (<[next_handle s := Timer f 0 []]> (timers s)) s)).
Proof. reflexivity. Qed.

(** C1: when [setImmediate] is undefined, a load installs a function under
    that name; a call of it with callback [f] is the call [setTimeout(f, 0)]
    of whatever [setTimeout] names at that moment, with the same completion
    and the same effect; where [setTimeout] names the host's primitive the
    call registers [f] with delay zero and returns the handle the primitive
    issued. *)
Theorem setImmediate_forwards_to_setTimeout (s : realm) (ms : gset string) :
  packages s !! jest_dom = Some ms →
  typeof (get_global "setImmediate" s) = "undefined" →
  ∃ shim,
    (setupTests s).1 = Normal tt
    ∧ globals (exec setupTests s) !! "setImmediate" = Some shim
    ∧ typeof shim = "function"
    ∧ ∀ (d : nat) (f : value) (extra : list value) (s' : realm),
        call (S d) shim (f :: extra) s'
        = call_ident (call d) "setTimeout" [f; VNum 0] s'
        ∧ (globals s' !! "setTimeout" = Some (VFun FSetTimeout) →
           call (S (S d)) shim (f :: extra) s'
           = (Normal (VNum (next_handle s')),
              with_next_handle (next_handle s' + 1)
                (with_timers (<[next_handle s' := Timer f 0 []]> (timers s')) s'))).
Proof.
  intros Hp Hs.
  destruct (load_installs_setImmediate s ms Hp Hs) as [Hn [o Ho]].
  exists (VFun (FShimSetImmediate o)). split_and!; [done | done | done |].
  intros d f extra s'. split; [reflexivity |].
  intros Hb. cbn [call]. unfold setImmediate_shim.
  by rewrite (call_ident_bound _ _ _ _ _ Hb).
Qed.

Lemma setImmediate_forwards_to_setTimeout_witness :
  ∃ shim,
    (setupTests bare_realm).1 = Normal tt
    ∧ globals (exec setupTests bare_realm) !! "setImmediate" = Some shim
    ∧ typeof shim = "function"
    ∧ ∀ (d : nat) (f : value) (extra : list value) (s' : realm),
        call (S d) shim (f :: extra) s'
        = call_ident (call d) "setTimeout" [f; VNum 0] s'
        ∧ (globals s' !! "setTimeout" = Some (VFun FSetTimeout) →
           call (S (S d)) shim (f :: extra) s'
           = (Normal (VNum (next_handle s')),
              with_next_handle (next_handle s' + 1)
                (with_timers (<[next_handle s' := Timer f 0 []]> (timers s')) s'))).
Proof.
  apply (setImmediate_forwards_to_setTimeout bare_realm
           {[ "toHaveTextContent"; "toBeInTheDocument" ]});
    by vm_compute.
Defined.

(** C2: when [clearImmediate] is undefined, a load installs a function under
    that name; a call of it with handle [h] leaves the realm exactly as the
    call [clearTimeout(h)] of whatever [clearTimeout] names at that moment
    leaves it and fails exactly when that call fails; where [clearTimeout]
    names the host's primitive the two calls also return the same value. *)
Theorem clearImmediate_acts_as_clearTimeout (s : realm) (ms : gset string) :
  packages s !! jest_dom = Some ms →
  typeof (get_global "clearImmediate" s) = "undefined" →
  ∃ shim,
    (setupTests s).1 = Normal tt
    ∧ globals (exec setupTests s) !! "clearImmediate" = Some shim
    ∧ typeof shim = "function"
    ∧ ∀ (d : nat) (h : value) (extra : list value) (s' : realm),
        exec (call (S d) shim (h :: extra)) s'
        = exec (call_ident (call d) "clearTimeout" [h]) s'
        ∧ (∀ e, (call (S d) shim (h :: extra) s').1 = Throw e
                ↔ (call_ident (call d) "clearTimeout" [h] s').1 = Throw e)
        ∧ (globals s' !! "clearTimeout" = Some (VFun FClearTimeout) →
           call (S (S d)) shim (h :: extra) s'
           = call (S d) (VFun FClearTimeout) [h] s').
Proof.
  intros Hp Hs.
  destruct (load_installs_clearImmediate s ms Hp Hs) as [Hn [o Ho]].
  exists (VFun (FShimClearImmediate o)). split_and!; [done | done | done |].
  intros d h extra s'. cbn [call]. unfold clearImmediate_shim, exec.
  change (arg 0 (h :: extra)) with h.
  split_and!.
  - unfold mbind at 1, js_bind at 1.
    by destruct (call_ident (call d) "clearTimeout" [h] s') as [[v|e] s''].
  - intros e. unfold mbind at 1, js_bind at 1.
    by destruct (call_ident (call d) "clearTimeout" [h] s') as [[v|e'] s''].
  - intros Hb. unfold mbind at 1, js_bind at 1.
    rewrite (call_ident_bound _ _ _ _ _ Hb). cbn [call].
    unfold host_clearTimeout. js_run. by destruct h.
Qed.

Lemma clearImmediate_acts_as_clearTimeout_witness :
  ∃ shim,
    (setupTests bare_realm).1 = Normal tt
    ∧ globals (exec setupTests bare_realm) !! "clearImmediate" = Some shim
    ∧ typeof shim = "function"
    ∧ ∀ (d : nat) (h : value) (extra : list value) (s' : realm),
        exec (call (S d) shim (h :: extra)) s'
        = exec (call_ident (call d) "clearTimeout" [h]) s'
        ∧ (∀ e, (call (S d) shim (h :: extra) s').1 = Throw e
                ↔ (call_ident (call d) "clearTimeout" [h] s').1 = Throw e)
        ∧ (globals s' !! "clearTimeout" = Some (VFun FClearTimeout) →
           call (S (S d)) shim (h :: extra) s'
           = call (S d) (VFun FClearTimeout) [h] s').
Proof.
  apply (clearImmediate_acts_as_clearTimeout bare_realm
           {[ "toHaveTextContent"; "toBeInTheDocument" ]});
    by vm_compute.
Defined.

(** ** The callback runs later, and without arguments *)

(** A call of the installed [setImmediate] in a realm whose [setTimeout] is
    the host's primitive. *)
Lemma setImmediate_shim_call (d : nat) (o : N) (f : value) (extra : list value)
    (s : realm) :
  globals s !! "setTimeout" = Some (VFun FSetTimeout) →
  call (S (S d)) (VFun (FShimSetImmediate o)) (f :: extra) s
  = (Normal (VNum (next_handle s)),
     with_next_handle (next_handle s + 1)
       (with_timers (<[next_handle s := Timer f 0 []]> (timers s)) s)).
Proof.
  intros Hb. cbn [call]. unfold setImmediate_shim.
  by rewrite (call_ident_bound _ _ _ _ _ Hb).
Qed.

(** A call of the installed [clearImmediate] in a realm whose [clearTimeout]
    is the host's primitive. *)
Lemma clearImmediate_shim_call (d : nat) (o : N) (h : Z) (extra : list value)
    (s : realm) :
  globals s !! "clearTimeout" = Some (VFun FClearTimeout) →
  call (S (S d)) (VFun (FShimClearImmediate o)) (VNum h :: extra) s
  = (Normal VUndefined, with_timers (delete h (timers s)) s).
Proof.
  intros Hb. cbn [call]. unfold clearImmediate_shim.
  unfold mbind at 1, js_bind at 1.
  by rewrite (call_ident_bound _ _ _ _ _ Hb).
Qed.

(** The host runs a pending timer whose handler is a function of the host. *)
Lemma fire_pending (d : nat) (h : Z) (n : N) (args : list value) (s : realm) :
  timers s !! h = Some (Timer (VFun (FHost n)) 0 args) →
  exec (fire (S d) h) s
  = with_trace (trace s ++ [EvFire h (VFun (FHost n)) args; EvInvoke n args])
      (with_timers (delete h (timers s)) s).
Proof.
  intros H. destruct s as [g o t nh m p tr]. cbn in H.
  unfold exec, fire, attempt, exec. js_run. rewrite H. cbn.
  js_run. by rewrite <- app_assoc.
Qed.

(** C10: the installed [setImmediate] passes on its first argument only: the
    timer it registers carries no arguments, so that the host, when it runs
    the timer, calls the callback with none, whatever followed the callback
    in the call of the shim. *)
Theorem setImmediate_drops_extra_arguments (s : realm) (ms : gset string) :
  packages s !! jest_dom = Some ms →
  typeof (get_global "setImmediate" s) = "undefined" →
  ∃ shim,
    globals (exec setupTests s) !! "setImmediate" = Some shim
    ∧ ∀ (d d' : nat) (n : N) (extra : list value) (s' : realm),
        globals s' !! "setTimeout" = Some (VFun FSetTimeout) →
        let h := next_handle s' in
        let r := call (S (S d)) shim (VFun (FHost n) :: extra) s' in
        r.1 = Normal (VNum h)
        ∧ timers r.2 !! h = Some (Timer (VFun (FHost n)) 0 [])
        ∧ trace (exec (fire (S d') h) r.2)
          = trace s' ++ [EvFire h (VFun (FHost n)) []; EvInvoke n []].
Proof.
  intros Hp Hs.
  destruct (load_installs_setImmediate s ms Hp Hs) as [_ [o Ho]].
  exists (VFun (FShimSetImmediate o)). split; [done |].
  intros d d' n extra s' Hb. cbn zeta.
  rewrite (setImmediate_shim_call d o _ extra s' Hb). cbn [fst snd].
  assert (Hpend : timers (with_next_handle (next_handle s' + 1)
            (with_timers (<[next_handle s' := Timer (VFun (FHost n)) 0 []]>
               (timers s')) s')) !! next_handle s'
          = Some (Timer (VFun (FHost n)) 0 [])).
  { destruct s'; cbn. by rewrite lookup_insert_eq. }
  split_and!; [done | done |].
  rewrite (fire_pending d' _ n [] _ Hpend). by destruct s'.
Qed.

Lemma setImmediate_drops_extra_arguments_witness :
  ∃ shim,
    globals (exec setupTests bare_realm) !! "setImmediate" = Some shim
    ∧ ∀ (d d' : nat) (n : N) (extra : list value) (s' : realm),
        globals s' !! "setTimeout" = Some (VFun FSetTimeout) →
        let h := next_handle s' in
        let r := call (S (S d)) shim (VFun (FHost n) :: extra) s' in
        r.1 = Normal (VNum h)
        ∧ timers r.2 !! h = Some (Timer (VFun (FHost n)) 0 [])
        ∧ trace (exec (fire (S d') h) r.2)
          = trace s' ++ [EvFire h (VFun (FHost n)) []; EvInvoke n []].
Proof.
  apply (setImmediate_drops_extra_arguments bare_realm
           {[ "toHaveTextContent"; "toBeInTheDocument" ]});
    by vm_compute.
Defined.

(** C6: when [setImmediate] is undefined, a call of the installed function
    with callback [f] returns a handle and changes nothing but the host's
    timers: [f] is not entered and no event happens during the call; [f] is
    pending under the returned handle with delay zero and is entered when the
    host runs that timer; and the handle is the one [clearImmediate]'s shim
    cancels it with. *)
Theorem setImmediate_defers_the_callback (s : realm) (ms : gset string) :
  packages s !! jest_dom = Some ms →
  typeof (get_global "setImmediate" s) = "undefined" →
  ∃ shim,
    globals (exec setupTests s) !! "setImmediate" = Some shim
    ∧ ∀ (d d' : nat) (n : N) (extra : list value) (s' : realm),
        globals s' !! "setTimeout" = Some (VFun FSetTimeout) →
        let f := VFun (FHost n) in
        let h := next_handle s' in
        let r := call (S (S d)) shim (f :: extra) s' in
        r.1 = Normal (VNum h)
        ∧ trace r.2 = trace s'
        ∧ timers r.2 = <[h := Timer f 0 []]> (timers s')
        ∧ globals r.2 = globals s'
        ∧ EvInvoke n [] ∈ trace (exec (fire (S d') h) r.2)
        ∧ ∀ o', globals s' !! "clearTimeout" = Some (VFun FClearTimeout) →
            let c := call (S (S d')) (VFun (FShimClearImmediate o')) [VNum h] r.2 in
            c.1 = Normal VUndefined
            ∧ timers c.2 !! h = None
            ∧ trace c.2 = trace s'
            ∧ exec (fire (S d') h) c.2 = c.2.
Proof.
  intros Hp Hs.
  destruct (load_installs_setImmediate s ms Hp Hs) as [_ [o Ho]].
  exists (VFun (FShimSetImmediate o)). split; [done |].
  intros d d' n extra s' Hb. cbn zeta.
  rewrite (setImmediate_shim_call d o _ extra s' Hb). cbn [fst snd].
  split_and!; try by destruct s'.
  - rewrite (fire_pending d' _ n []).
    + destruct s'; cbn. set_solver.
    + destruct s'; cbn. by rewrite lookup_insert_eq.
  - intros o' Hc. rewrite clearImmediate_shim_call by by destruct s'.
    cbn [fst snd]. split_and!; try by destruct s'.
    + destruct s'; cbn. by rewrite lookup_delete_eq.
    + destruct s' as [g o0 t nh m p tr]. unfold exec, fire. js_run.
      by rewrite lookup_delete_eq.
Qed.

Lemma setImmediate_defers_the_callback_witness :
  ∃ shim,
    globals (exec setupTests bare_realm) !! "setImmediate" = Some shim
    ∧ ∀ (d d' : nat) (n : N) (extra : list value) (s' : realm),
        globals s' !! "setTimeout" = Some (VFun FSetTimeout) →
        let f := VFun (FHost n) in
        let h := next_handle s' in
        let r := call (S (S d)) shim (f :: extra) s' in
        r.1 = Normal (VNum h)
        ∧ trace r.2 = trace s'
        ∧ timers r.2 = <[h := Timer f 0 []]> (timers s')
        ∧ globals r.2 = globals s'
        ∧ EvInvoke n [] ∈ trace (exec (fire (S d') h) r.2)
        ∧ ∀ o', globals s' !! "clearTimeout" = Some (VFun FClearTimeout) →
            let c := call (S (S d')) (VFun (FShimClearImmediate o')) [VNum h] r.2 in
            c.1 = Normal VUndefined
            ∧ timers c.2 !! h = None
            ∧ trace c.2 = trace s'
            ∧ exec (fire (S d') h) c.2 = c.2.
Proof.
  apply (setImmediate_defers_the_callback bare_realm
           {[ "toHaveTextContent"; "toBeInTheDocument" ]});
    by vm_compute.
Defined.

(** ** A cancelled timer stays cancelled *)

Section preservation.
Context (P : realm → Prop).

Lemma preserved_ret {A : Type} (a : A) : preserved P (mret a).
Proof. by intros s. Qed.

Lemma preserved_throw {A : Type} (e : error) : preserved P (throw (A:=A) e).
Proof. by intros s. Qed.

Lemma preserved_gets {A : Type} (f : realm → A) : preserved P (gets f).
Proof. by intros s. Qed.

Lemma preserved_modify (f : realm → realm) :
  (∀ s, P s → P (f s)) → preserved P (modify f).
Proof. intros H s. apply H. Qed.

Lemma preserved_bind {A B : Type} (m : js A) (k : A → js B) :
  preserved P m → (∀ a, preserved P (k a)) → preserved P (m ≫= k).
Proof.
  intros Hm Hk s Hs. specialize (Hm s Hs). unfold exec, mbind, js_bind in *.
  destruct (m s) as [[a|e] s']; cbn in *; [by apply Hk | done].
Qed.

Lemma preserved_attempt {A : Type} (m : js A) :
  preserved P m → preserved P (attempt m).
Proof. intros H s. apply H. Qed.
End preservation.

Lemma stale_emit (h : Z) (e : event) :
  (∀ fn args, e ≠ EvFire h fn args) → preserved (stale h) (emit e).
Proof.
  intros He. apply preserved_modify. intros s (Hlt & Hnone & Hnf).
  destruct s as [g o t nh m p tr]. unfold stale, fired in *. cbn in *.
  split_and!; [done | done |].
  intros (fn & args & Hin). apply elem_of_app in Hin as [Hin | Hin].
  - apply Hnf. eauto.
  - apply list_elem_of_singleton in Hin. exact (He fn args (eq_sym Hin)).
Qed.

Lemma stale_assign_global (h : Z) (k : string) (v : value) :
  preserved (stale h) (assign_global k v).
Proof.
  apply preserved_bind; [by apply stale_emit |].
  intros _. apply preserved_modify. by intros [].
Qed.

Lemma stale_host_setTimeout (h : Z) (args : list value) :
  preserved (stale h) (host_setTimeout args).
Proof.
  intros s (Hlt & Hnone & Hnf). destruct s as [g o t nh m p tr].
  unfold stale, fired, exec, host_setTimeout in *. js_run.
  split_and!; [lia | | done].
  rewrite lookup_insert_ne by lia. done.
Qed.

Lemma stale_host_clearTimeout (h : Z) (args : list value) :
  preserved (stale h) (host_clearTimeout args).
Proof.
  intros s (Hlt & Hnone & Hnf). destruct s as [g o t nh m p tr].
  unfold stale, fired, host_clearTimeout, exec in *.
  destruct (arg 0 args); js_run; try done.
  split_and!; [done | | done].
  rewrite lookup_delete. by case_decide.
Qed.

Lemma stale_call_ident (h : Z) (inv : value → list value → js value)
    (x : string) (args : list value) :
  (∀ v a, preserved (stale h) (inv v a)) →
  preserved (stale h) (call_ident inv x args).
Proof.
  intros Hinv. apply preserved_bind; [| done].
  apply preserved_bind; [apply preserved_gets |].
  intros [v|]; [apply preserved_ret | apply preserved_throw].
Qed.

Lemma stale_call (h : Z) (d : nat) (v : value) (args : list value) :
  preserved (stale h) (call d v args).
Proof.
  revert v args. induction d as [|d IH]; intros v args; cbn [call].
  { apply preserved_throw. }
  destruct v as [| | | | | |[]]; try apply preserved_throw.
  - apply stale_host_setTimeout.
  - apply stale_host_clearTimeout.
  - apply preserved_bind; [by apply stale_call_ident |].
    intros _. apply preserved_ret.
  - by apply stale_call_ident.
  - apply preserved_bind; [by apply stale_emit |].
    intros _. apply preserved_ret.
  - apply preserved_bind; [by apply stale_emit |].
    intros _. apply preserved_ret.
Qed.

Lemma stale_fire (h : Z) (d : nat) (h' : Z) : preserved (stale h) (fire d h').
Proof.
  intros s Hs. unfold fire, exec, mbind at 1, js_bind at 1, gets. cbn.
  destruct (timers s !! h') as [t|] eqn:Ht; [| done].
  assert (h' ≠ h) as Hne by (destruct Hs as (_ & Hnone & _); congruence).
  revert s Hs Ht.
  change (∀ s, stale h s → timers s !! h' = Some t → stale h (exec
    (modify (λ s, with_timers (delete h' (timers s)) s);;
     emit (EvFire h' (handler t) (targs t));;
     attempt (call d (handler t) (targs t))) s)).
  intros s Hs _. revert s Hs.
  apply preserved_bind; [| intros _; apply preserved_bind].
  - apply preserved_modify. intros [] (? & ? & ?). unfold stale, fired in *.
    cbn in *. split_and!; [done | | done].
    by rewrite lookup_delete_ne.
  - apply stale_emit. congruence.
  - intros _. apply preserved_attempt, stale_call.
Qed.

Lemma stale_install_if_missing (h : Z) (k : string) (mk : N → func) :
  preserved (stale h) (install_if_missing k mk).
Proof.
  apply preserved_bind.
  - apply preserved_bind; [by apply stale_emit | intros _; apply preserved_gets].
  - intros t. case_decide; [| apply preserved_ret].
    apply preserved_bind; [| intros f; apply stale_assign_global].
    apply preserved_bind; [apply preserved_gets |]. intros o.
    apply preserved_bind; [| intros _; apply preserved_ret].
    apply preserved_modify. by intros [].
Qed.

Lemma stale_setupTests (h : Z) : preserved (stale h) setupTests.
Proof.
  apply preserved_bind; [| intros _; apply preserved_bind].
  - apply preserved_bind; [by apply stale_emit |]. intros _.
    apply preserved_bind; [apply preserved_gets |].
    intros [ms|]; [| apply preserved_throw].
    apply preserved_modify. by intros [].
  - apply stale_install_if_missing.
  - intros _. apply stale_install_if_missing.
Qed.

Lemma stale_perform (h : Z) (a : action) : preserved (stale h) (perform a).
Proof.
  destruct a; cbn [perform].
  - apply stale_fire.
  - apply preserved_attempt, stale_call.
  - apply stale_assign_global.
  - apply preserved_attempt, stale_setupTests.
Qed.

Lemma stale_run (h : Z) (acts : list action) (s : realm) :
  stale h s → stale h (run acts s).
Proof.
  revert s. induction acts as [|a acts IH]; intros s Hs; [done |].
  cbn. apply IH. by apply stale_perform.
Qed.

(** A load leaves the host's timers alone and runs none of them. *)
Lemma load_frame (s : realm) :
  timers (exec setupTests s) = timers s
  ∧ next_handle (exec setupTests s) = next_handle s.
Proof. load_cases s; done. Qed.

Lemma load_fires_nothing (s : realm) (i : Z) :
  fired i (exec setupTests s) → fired i s.
Proof.
  unfold fired. load_cases s; load_done.
  all: intros (fn & args & Hin); exists fn, args; set_solver.
Qed.

(** C4: when neither [setImmediate] nor [clearImmediate] is defined, both
    are functions after a load; in a realm whose timeout primitives are the
    host's, [clearImmediate(setImmediate(f))] completes normally and the
    timer it had registered for [f] is never run by the host, whatever
    happens in the realm afterwards. *)
Theorem cancelled_immediate_never_runs (s : realm) (ms : gset string) :
  packages s !! jest_dom = Some ms →
  typeof (get_global "setImmediate" s) = "undefined" →
  typeof (get_global "clearImmediate" s) = "undefined" →
  globals s !! "setTimeout" = Some (VFun FSetTimeout) →
  globals s !! "clearTimeout" = Some (VFun FClearTimeout) →
  ¬ fired (next_handle s) s →
  let s1 := exec setupTests s in
  typeof (get_global "setImmediate" s1) = "function"
  ∧ typeof (get_global "clearImmediate" s1) = "function"
  ∧ ∀ (d : nat) (f : value),
      let schedule := call_ident (call (S (S d))) "setImmediate" [f] in
      let prog := h ← schedule; call_ident (call (S (S d))) "clearImmediate" [h] in
      (schedule s1).1 = Normal (VNum (next_handle s))
      ∧ (prog s1).1 = Normal VUndefined
      ∧ trace (exec prog s1) = trace s1
      ∧ ∀ acts, ¬ fired (next_handle s) (run acts (exec prog s1))
                ∧ timers (run acts (exec prog s1)) !! next_handle s = None.
Proof.
  intros Hp Hs Hc Hst Hct Hnf. cbn zeta.
  destruct (load_installs_setImmediate s ms Hp Hs) as [_ [os Hos]].
  destruct (load_installs_clearImmediate s ms Hp Hc) as [_ [oc Hoc]].
  assert (Hst1 := load_keeps_binding s "setTimeout" ltac:(done) ltac:(done)).
  assert (Hct1 := load_keeps_binding s "clearTimeout" ltac:(done) ltac:(done)).
  rewrite Hst in Hst1. rewrite Hct in Hct1.
  destruct (load_frame s) as [Htm Hnh].
  assert (Hnf1 : ¬ fired (next_handle s) (exec setupTests s))
    by (intros Hf; by apply Hnf, load_fires_nothing).
  set (s1 := exec setupTests s) in *. clearbody s1.
  unfold get_global. rewrite Hos, Hoc. split_and!; [done | done |].
  intros d f.
  assert (Hsched : call_ident (call (S (S d))) "setImmediate" [f] s1
    = (Normal (VNum (next_handle s)),
       with_next_handle (next_handle s + 1)
         (with_timers (<[next_handle s := Timer f 0 []]> (timers s1)) s1))).
  { rewrite (call_ident_bound _ _ _ _ _ Hos).
    rewrite (setImmediate_shim_call d os f [] s1 Hst1). by rewrite Hnh. }
  assert (Hprog : (h ← call_ident (call (S (S d))) "setImmediate" [f];
                   call_ident (call (S (S d))) "clearImmediate" [h]) s1
    = (Normal VUndefined,
       with_timers (delete (next_handle s) (<[next_handle s := Timer f 0 []]> (timers s1)))
         (with_next_handle (next_handle s + 1) s1))).
  { rewrite (bind_normal _ _ _ _ _ Hsched).
    rewrite (call_ident_bound _ _ (VFun (FShimClearImmediate oc)))
      by by destruct s1.
    rewrite clearImmediate_shim_call by by destruct s1.
    by destruct s1. }
  unfold exec. rewrite Hsched, Hprog. cbn [fst snd].
  split_and!; [done | done | by destruct s1 |].
  intros acts.
  cut (stale (next_handle s) (run acts
         (with_timers (delete (next_handle s)
                         (<[next_handle s := Timer f 0 []]> (timers s1)))
            (with_next_handle (next_handle s + 1) s1)))).
  { by intros (_ & Hnone & Hnever). }
  apply stale_run.
  destruct s1 as [g o t nh m p tr]. unfold stale, fired in *. cbn in *.
  split_and!; [lia | by rewrite lookup_delete_eq | done].
Qed.

Lemma cancelled_immediate_never_runs_witness :
  let s1 := exec setupTests bare_realm in
  typeof (get_global "setImmediate" s1) = "function"
  ∧ typeof (get_global "clearImmediate" s1) = "function"
  ∧ ∀ (d : nat) (f : value),
      let schedule := call_ident (call (S (S d))) "setImmediate" [f] in
      let prog := h ← schedule; call_ident (call (S (S d))) "clearImmediate" [h] in
      (schedule s1).1 = Normal (VNum (next_handle bare_realm))
      ∧ (prog s1).1 = Normal VUndefined
      ∧ trace (exec prog s1) = trace s1
      ∧ ∀ acts, ¬ fired (next_handle bare_realm) (run acts (exec prog s1))
                ∧ timers (run acts (exec prog s1)) !! next_handle bare_realm = None.
Proof.
  apply (cancelled_immediate_never_runs bare_realm
           {[ "toHaveTextContent"; "toBeInTheDocument" ]});
    try by vm_compute.
  intros (fn & args & Hin). vm_compute in Hin. by apply elem_of_nil in Hin.
Defined.

(** ** Concrete runs *)

Example load_on_bare_realm :
  setupTests bare_realm
  = (Normal tt,
     Realm {[ "setTimeout" := VFun FSetTimeout;
              "clearTimeout" := VFun FClearTimeout;
              "clearImmediate" := VFun (FShimClearImmediate 0);
              "setImmediate" := VFun (FShimSetImmediate 1) ]}
           2%N ∅ 1 {[ "toHaveTextContent"; "toBeInTheDocument" ]}
           (packages bare_realm)
           [EvImport jest_dom;
            EvTypeof "clearImmediate";
            EvAssign "clearImmediate" (VFun (FShimClearImmediate 0));
            EvTypeof "setImmediate";
            EvAssign "setImmediate" (VFun (FShimSetImmediate 1))]).
Proof. by vm_compute. Qed.

Example load_on_native_realm :
  globals (exec setupTests native_realm) = globals native_realm
  ∧ trace (exec setupTests native_realm)
    = [EvImport jest_dom; EvTypeof "clearImmediate"; EvTypeof "setImmediate"].
Proof. by vm_compute. Qed.

Example load_on_broken_realm :
  setupTests broken_realm
  = (Throw (ModuleNotFound jest_dom),
     with_trace [EvImport jest_dom] broken_realm).
Proof. by vm_compute. Qed.

Example scheduled_callback_runs_later :
  let s1 := exec setupTests bare_realm in
  trace (run [ACall 3 (get_global "setImmediate" s1)
                [VFun (FHost 9); VStr "extra"];
              AFire 3 1] s1)
  = trace s1 ++ [EvFire 1 (VFun (FHost 9)) []; EvInvoke 9 []].
Proof. by vm_compute. Qed.

Example cancelled_callback_does_not_run :
  let s1 := exec setupTests bare_realm in
  trace (run [ACall 3 (get_global "setImmediate" s1) [VFun (FHost 9)];
              ACall 3 (get_global "clearImmediate" s1) [VNum 1];
              AFire 3 1] s1)
  = trace s1.
Proof. by vm_compute. Qed.

(** A shim that is bound to the name it forwards to never returns: the
    engine runs out of stack. *)
Example shim_bound_to_its_own_target :
  let s1 := exec setupTests bare_realm in
  let s2 := exec (assign_global "setTimeout" (get_global "setImmediate" s1)) s1 in
  (call 50 (get_global "setImmediate" s2) [VFun (FHost 9)] s2).1
  = Throw RangeError.
Proof. by vm_compute. Qed.

(** * Further properties of the module *)

(** ** What the guards leave behind *)

Lemma get_global_imported (k : string) (ms : gset string) (s : realm) :
  get_global k (imported ms s) = get_global k s.
Proof. by destruct s. Qed.

Lemma guarded_function (k : string) (mk : N → func) (s : realm) :
  typeof (get_global k (guarded k mk s)) = "function"
  ↔ typeof (get_global k s) = "undefined" ∨ typeof (get_global k s) = "function".
Proof.
  unfold guarded. case_decide as H; destruct s; unfold get_global in *; cbn in *.
  - rewrite lookup_insert_eq. cbn. naive_solver.
  - naive_solver.
Qed.


Lemma call_not_a_function (d : nat) (v : value) (args : list value) (s : realm) :
  typeof v ≠ "function" → call (S d) v args s = (Throw TypeError, s).
Proof. intros H. by destruct v. Qed.

(** X2: a binding of [setImmediate] or [clearImmediate] that is defined but
    is not a function ([null], a number, an object) survives the load, so a
    call of that name after the load is a TypeError and leaves the realm as
    the load left it. *)
Theorem load_does_not_repair_a_value (s : realm) (k : string) (v : value) :
  k = "clearImmediate" ∨ k = "setImmediate" →
  globals s !! k = Some v →
  typeof v ≠ "undefined" →
  typeof v ≠ "function" →
  globals (exec setupTests s) !! k = Some v
  ∧ ∀ (d : nat) (args : list value),
      call_ident (call (S d)) k args (exec setupTests s)
      = (Throw TypeError, exec setupTests s).
Proof.
  intros Hk Hv Hdef Hfun.
  assert (Hkept : globals (exec setupTests s) !! k = Some v).
  { rewrite <- Hv. clear Hfun.
    assert (Hd : typeof (get_global k s) ≠ "undefined")
      by (unfold get_global; by rewrite Hv).
    clear Hv Hdef. load_cases s.
    all: destruct Hk; subst k; load_done. }
  split; [done |]. intros d args.
  rewrite (call_ident_bound _ _ _ _ _ Hkept).
  by apply call_not_a_function.
Qed.

Lemma load_does_not_repair_a_value_witness :
  let s := with_globals (<["setImmediate" := VNull]> (globals bare_realm)) bare_realm in
  globals (exec setupTests s) !! "setImmediate" = Some VNull
  ∧ ∀ (d : nat) (args : list value),
      call_ident (call (S d)) "setImmediate" args (exec setupTests s)
      = (Throw TypeError, exec setupTests s).
Proof.
  apply (load_does_not_repair_a_value
           (with_globals (<["setImmediate" := VNull]> (globals bare_realm)) bare_realm)
           "setImmediate" VNull);
    [by right | by vm_compute | by vm_compute | by vm_compute].
Defined.

(** ** The shims look their target up when they are called *)


(** X4: the load does not need the timeout primitives: it installs the shims
    also in a realm that has no [setTimeout] or [clearTimeout].  The lack
    shows when a shim is called: the call is a ReferenceError for the
    identifier the shim forwards to, and changes nothing. *)
Theorem shim_without_its_target (s : realm) (ms : gset string) (k x : string) :
  packages s !! jest_dom = Some ms →
  (k = "clearImmediate" ∧ x = "clearTimeout")
  ∨ (k = "setImmediate" ∧ x = "setTimeout") →
  typeof (get_global k s) = "undefined" →
  globals s !! x = None →
  (setupTests s).1 = Normal tt
  ∧ typeof (get_global k (exec setupTests s)) = "function"
  ∧ ∀ (d : nat) (args : list value),
      call_ident (call (S (S d))) k args (exec setupTests s)
      = (Throw (ReferenceError x), exec setupTests s).
Proof.
  intros Hp Hk Hu Hx.
  assert (Hn : (setupTests s).1 = Normal tt) by by rewrite (setupTests_loaded s ms Hp).
  assert (Hx1 : globals (exec setupTests s) !! x = None).
  { rewrite <- Hx. apply load_keeps_binding; by destruct Hk as [[_ ->] | [_ ->]]. }
  destruct Hk as [[-> ->] | [-> ->]].
  - destruct (load_installs_clearImmediate s ms Hp Hu) as [_ [o Ho]].
    set (s1 := exec setupTests s) in *. clearbody s1.
    split_and!; [done | unfold get_global; by rewrite Ho |].
    intros d args. rewrite (call_ident_bound _ _ _ _ _ Ho). cbn [call].
    unfold clearImmediate_shim, call_ident. js_run. by rewrite Hx1.
  - destruct (load_installs_setImmediate s ms Hp Hu) as [_ [o Ho]].
    set (s1 := exec setupTests s) in *. clearbody s1.
    split_and!; [done | unfold get_global; by rewrite Ho |].
    intros d args. rewrite (call_ident_bound _ _ _ _ _ Ho). cbn [call].
    unfold setImmediate_shim, call_ident. js_run. by rewrite Hx1.
Qed.

Lemma shim_without_its_target_witness :
  let s := with_globals ∅ bare_realm in
  (setupTests s).1 = Normal tt
  ∧ typeof (get_global "setImmediate" (exec setupTests s)) = "function"
  ∧ ∀ (d : nat) (args : list value),
      call_ident (call (S (S d))) "setImmediate" args (exec setupTests s)
      = (Throw (ReferenceError "setTimeout"), exec setupTests s).
Proof.
  apply (shim_without_its_target (with_globals ∅ bare_realm)
           {[ "toHaveTextContent"; "toBeInTheDocument" ]}
           "setImmediate" "setTimeout");
    [by vm_compute | by right | by vm_compute | by vm_compute].
Defined.

(** X5: the installed [clearImmediate] has no [return]: a call of it that
    completes normally returns [undefined], whatever [clearTimeout] is bound
    to and whatever that returns. *)
Theorem clearImmediate_returns_undefined (o : N) (d : nat) (args : list value)
    (s : realm) :
  match (call d (VFun (FShimClearImmediate o)) args s).1 with
  | Normal v => v = VUndefined
  | Throw _ => True
  end.
Proof.
  destruct d as [|d]; [done |]. cbn [call]. unfold clearImmediate_shim.
  unfold mbind at 1, js_bind at 1.
  by destruct (call_ident (call d) "clearTimeout" [arg 0 args] s) as [[w|e] s''].
Qed.

(** X6: a shim whose target is bound to a [setImmediate] shim calls itself
    without end: at every stack depth the call is a RangeError, and it never
    registers a timer. *)
Theorem setImmediate_bound_to_itself_overflows (d : nat) (o o' : N)
    (args : list value) (s : realm) :
  globals s !! "setTimeout" = Some (VFun (FShimSetImmediate o')) →
  call d (VFun (FShimSetImmediate o)) args s = (Throw RangeError, s).
Proof.
  intros Hb. revert o args. induction d as [|d IH]; intros o args; [done |].
  cbn [call]. unfold setImmediate_shim.
  rewrite (call_ident_bound _ _ _ _ _ Hb). apply IH.
Qed.

Lemma setImmediate_bound_to_itself_overflows_witness :
  let s := with_globals (<["setTimeout" := VFun (FShimSetImmediate 1)]>
                           (globals (exec setupTests bare_realm)))
             (exec setupTests bare_realm) in
  call 1000 (VFun (FShimSetImmediate 1)) [VFun (FHost 9)] s = (Throw RangeError, s).
Proof.
  apply (setImmediate_bound_to_itself_overflows 1000 1 1 [VFun (FHost 9)]).
  by vm_compute.
Defined.

(** ** The realms a load leaves alone *)


Lemma settled_load_is_noop (s : realm) :
  settled s → observable (exec setupTests s) = observable s.
Proof.
  unfold settled, exec.
  destruct (packages s !! jest_dom) as [ms|] eqn:Hp.
  - intros (Hms & Hc & Hs). rewrite (setupTests_loaded s ms Hp). cbn [snd].
    rewrite (guarded_present "clearImmediate")
      by by rewrite get_global_imported.
    rewrite (guarded_present "setImmediate") by by destruct s.
    destruct s as [g o t h m p tr]. unfold observable; cbn in *.
    by replace (m ∪ ms) with m by set_solver.
  - intros _. rewrite (setupTests_missing s Hp). by destruct s.
Qed.





(** ** A timer is run at most once *)

Arguments runs_of : simpl never.

Lemma runs_of_snoc_other (h : Z) (tr : list event) (e : event) :
  (∀ fn args, e ≠ EvFire h fn args) → runs_of h (tr ++ [e]) = runs_of h tr.
Proof.
  intros He. unfold runs_of. rewrite omap_app. cbn.
  destruct e as [| | |h' fn args|]; try apply app_nil_r.
  case_decide as Hh; [| apply app_nil_r]. subst h'. by destruct (He fn args).
Qed.

Lemma runs_of_snoc_fire (h : Z) (tr : list event) (fn : value)
    (args : list value) :
  runs_of h (tr ++ [EvFire h fn args]) = runs_of h tr ++ [(fn, args)].
Proof. unfold runs_of. rewrite omap_app. cbn. by rewrite decide_True. Qed.

Lemma spent_emit (h : Z) (rs : list (value * list value)) (e : event) :
  (∀ fn args, e ≠ EvFire h fn args) → preserved (spent h rs) (emit e).
Proof.
  intros He. apply preserved_modify. intros s (Hlt & Hnone & Hrs).
  destruct s as [g o t nh m p tr]. unfold spent in *. cbn in *.
  split_and!; [done | done |]. by rewrite runs_of_snoc_other.
Qed.

Lemma spent_assign_global (h : Z) (rs : list (value * list value))
    (k : string) (v : value) :
  preserved (spent h rs) (assign_global k v).
Proof.
  apply preserved_bind; [by apply spent_emit |].
  intros _. apply preserved_modify. by intros [].
Qed.

Lemma spent_host_setTimeout (h : Z) (rs : list (value * list value))
    (args : list value) :
  preserved (spent h rs) (host_setTimeout args).
Proof.
  intros s (Hlt & Hnone & Hrs). destruct s as [g o t nh m p tr].
  unfold spent, exec, host_setTimeout in *. js_run.
  split_and!; [lia | | done].
  rewrite lookup_insert_ne by lia. done.
Qed.

Lemma spent_host_clearTimeout (h : Z) (rs : list (value * list value))
    (args : list value) :
  preserved (spent h rs) (host_clearTimeout args).
Proof.
  intros s (Hlt & Hnone & Hrs). destruct s as [g o t nh m p tr].
  unfold spent, host_clearTimeout, exec in *.
  destruct (arg 0 args); js_run; try done.
  split_and!; [done | | done].
  rewrite lookup_delete. by case_decide.
Qed.

Lemma spent_call (h : Z) (rs : list (value * list value)) (d : nat)
    (v : value) (args : list value) :
  preserved (spent h rs) (call d v args).
Proof.
  assert (Hident : ∀ inv x a,
            (∀ v a, preserved (spent h rs) (inv v a)) →
            preserved (spent h rs) (call_ident inv x a)).
  { intros inv x a Hinv. apply preserved_bind; [| done].
    apply preserved_bind; [apply preserved_gets |].
    intros [w|]; [apply preserved_ret | apply preserved_throw]. }
  revert v args. induction d as [|d IH]; intros v args; cbn [call].
  { apply preserved_throw. }
  destruct v as [| | | | | |[]]; try apply preserved_throw.
  - apply spent_host_setTimeout.
  - apply spent_host_clearTimeout.
  - apply preserved_bind; [by apply Hident |].
    intros _. apply preserved_ret.
  - by apply Hident.
  - apply preserved_bind; [by apply spent_emit |].
    intros _. apply preserved_ret.
  - apply preserved_bind; [by apply spent_emit |].
    intros _. apply preserved_ret.
Qed.

Lemma spent_fire (h : Z) (rs : list (value * list value)) (d : nat) (h' : Z) :
  preserved (spent h rs) (fire d h').
Proof.
  intros s Hs. unfold fire, exec, mbind at 1, js_bind at 1, gets. cbn.
  destruct (timers s !! h') as [t|] eqn:Ht; [| done].
  assert (h' ≠ h) as Hne by (destruct Hs as (_ & Hnone & _); congruence).
  revert s Hs Ht.
  change (∀ s, spent h rs s → timers s !! h' = Some t → spent h rs (exec
    (modify (λ s, with_timers (delete h' (timers s)) s);;
     emit (EvFire h' (handler t) (targs t));;
     attempt (call d (handler t) (targs t))) s)).
  intros s Hs _. revert s Hs.
  apply preserved_bind; [| intros _; apply preserved_bind].
  - apply preserved_modify. intros [] (? & ? & ?). unfold spent in *.
    cbn in *. split_and!; [done | | done].
    by rewrite lookup_delete_ne.
  - apply spent_emit. congruence.
  - intros _. apply preserved_attempt, spent_call.
Qed.

Lemma spent_setupTests (h : Z) (rs : list (value * list value)) :
  preserved (spent h rs) setupTests.
Proof.
  assert (Hguard : ∀ k mk, preserved (spent h rs) (install_if_missing k mk)).
  { intros k mk. apply preserved_bind.
    - apply preserved_bind; [by apply spent_emit | intros _; apply preserved_gets].
    - intros t. case_decide; [| apply preserved_ret].
      apply preserved_bind; [| intros f; apply spent_assign_global].
      apply preserved_bind; [apply preserved_gets |]. intros o.
      apply preserved_bind; [| intros _; apply preserved_ret].
      apply preserved_modify. by intros []. }
  apply preserved_bind; [| intros _; apply preserved_bind].
  - apply preserved_bind; [by apply spent_emit |]. intros _.
    apply preserved_bind; [apply preserved_gets |].
    intros [ms|]; [| apply preserved_throw].
    apply preserved_modify. by intros [].
  - apply Hguard.
  - intros _. apply Hguard.
Qed.

Lemma spent_run (h : Z) (rs : list (value * list value)) (acts : list action)
    (s : realm) :
  spent h rs s → spent h rs (run acts s).
Proof.
  revert s. induction acts as [|a acts IH]; intros s Hs; [done |].
  cbn. apply IH. destruct a; cbn [perform].
  - by apply spent_fire.
  - apply preserved_attempt; [apply spent_call | done].
  - by apply spent_assign_global.
  - apply preserved_attempt; [apply spent_setupTests | done].
Qed.

(** X9: a callback scheduled through the installed [setImmediate] is called
    by the host once and never again: after the host ran its timer, the calls
    the host made for the returned handle are the one call of the callback
    with no arguments, whatever timers run, functions are called, globals are
    assigned or loads happen afterwards. *)
Theorem scheduled_callback_runs_once (o : N) (d d' : nat) (f : value)
    (extra : list value) (s : realm) (acts : list action) :
  globals s !! "setTimeout" = Some (VFun FSetTimeout) →
  runs_of (next_handle s) (trace s) = [] →
  let h := next_handle s in
  let s1 := exec (call (S (S d)) (VFun (FShimSetImmediate o)) (f :: extra)) s in
  runs_of h (trace (run (AFire d' h :: acts) s1)) = [(f, [])]
  ∧ timers (run (AFire d' h :: acts) s1) !! h = None.
Proof.
  intros Hb Hfresh. cbn zeta.
  assert (Hs1 : exec (call (S (S d)) (VFun (FShimSetImmediate o)) (f :: extra)) s
                = with_next_handle (next_handle s + 1)
                    (with_timers (<[next_handle s := Timer f 0 []]> (timers s)) s))
    by (unfold exec; by rewrite (setImmediate_shim_call d o f extra s Hb)).
  rewrite Hs1. clear Hs1.
  cbn [run foldl perform]. change (foldl _ ?s' ?l) with (run l s').
  cut (spent (next_handle s) [(f, [])] (run acts (exec (fire d' (next_handle s))
         (with_next_handle (next_handle s + 1)
            (with_timers (<[next_handle s := Timer f 0 []]> (timers s)) s))))).
  { by intros (_ & Hnone & Hrs). }
  apply spent_run.
  unfold fire, exec, mbind at 1, js_bind at 1, gets. cbn [fst snd].
  replace (timers (with_next_handle (next_handle s + 1)
             (with_timers (<[next_handle s := Timer f 0 []]> (timers s)) s))
           !! next_handle s) with (Some (Timer f 0 []))
    by (destruct s; cbn; by rewrite lookup_insert_eq).
  cbn [handler targs].
  unfold mbind at 1, js_bind at 1, modify at 1.
  unfold mbind at 1, js_bind at 1, emit at 1, modify at 1.
  unfold attempt. cbn [snd]. apply spent_call.
  destruct s as [g o0 t nh m p tr]. unfold spent. cbn in *.
  split_and!; [lia | by rewrite lookup_delete_eq |].
  by rewrite runs_of_snoc_fire, Hfresh.
Qed.

Lemma scheduled_callback_runs_once_witness :
  let s := exec setupTests bare_realm in
  let h := next_handle s in
  let s1 := exec (call 2 (VFun (FShimSetImmediate 1)) [VFun (FHost 9); VStr "x"]) s in
  let acts := [AFire 1 h; ACall 2 (VFun (FShimClearImmediate 0)) [VNum h];
               ALoad; AFire 1 h] in
  runs_of h (trace (run (AFire 1 h :: acts) s1)) = [(VFun (FHost 9), [])]
  ∧ timers (run (AFire 1 h :: acts) s1) !! h = None.
Proof.
  apply (scheduled_callback_runs_once 1 0 1 (VFun (FHost 9)) [VStr "x"]
           (exec setupTests bare_realm));
    by vm_compute.
Defined.

(** ** Cancelling *)

(** X10: two callbacks scheduled through the installed [setImmediate] get
    different handles, and cancelling the first through the installed
    [clearImmediate] leaves the second pending with its callback and touches
    no other timer of the host. *)
Theorem cancelling_one_keeps_the_other (os oc : N) (d : nat) (f g : value)
    (s : realm) :
  globals s !! "setTimeout" = Some (VFun FSetTimeout) →
  globals s !! "clearTimeout" = Some (VFun FClearTimeout) →
  let set_immediate := call (S (S d)) (VFun (FShimSetImmediate os)) in
  let clear_immediate := call (S (S d)) (VFun (FShimClearImmediate oc)) in
  let prog := h1 ← set_immediate [f];
              h2 ← set_immediate [g];
              clear_immediate [h1];;
              mret (h1, h2) in
  let h := next_handle s in
  (prog s).1 = Normal (VNum h, VNum (h + 1))
  ∧ timers (exec prog s) !! h = None
  ∧ timers (exec prog s) !! (h + 1) = Some (Timer g 0 [])
  ∧ (∀ i, i ≠ h → i ≠ h + 1 → timers (exec prog s) !! i = timers s !! i)
  ∧ trace (exec prog s) = trace s.
Proof.
  intros Hst Hct. cbn zeta.
  set (s1 := with_next_handle (next_handle s + 1)
               (with_timers (<[next_handle s := Timer f 0 []]> (timers s)) s)).
  set (s2 := with_next_handle (next_handle s1 + 1)
               (with_timers (<[next_handle s1 := Timer g 0 []]> (timers s1)) s1)).
  assert (H1 : call (S (S d)) (VFun (FShimSetImmediate os)) [f] s
               = (Normal (VNum (next_handle s)), s1))
    by by apply setImmediate_shim_call.
  assert (H2 : call (S (S d)) (VFun (FShimSetImmediate os)) [g] s1
               = (Normal (VNum (next_handle s + 1)), s2)).
  { rewrite setImmediate_shim_call by by destruct s. by destruct s. }
  assert (H3 : call (S (S d)) (VFun (FShimClearImmediate oc))
                 [VNum (next_handle s)] s2
               = (Normal VUndefined,
                  with_timers (delete (next_handle s) (timers s2)) s2))
    by (apply clearImmediate_shim_call; by destruct s).
  unfold exec.
  rewrite (bind_normal _ _ _ _ _ H1), (bind_normal _ _ _ _ _ H2),
    (bind_normal _ _ _ _ _ H3).
  destruct s as [gl o t nh m p tr]. cbn.
  split_and!; [done | by rewrite lookup_delete_eq | | | done].
  - rewrite lookup_delete_ne by lia. by rewrite lookup_insert_eq.
  - intros i Hi Hi'. rewrite lookup_delete_ne by done.
    by rewrite !lookup_insert_ne by done.
Qed.

Lemma cancelling_one_keeps_the_other_witness :
  let s := exec setupTests bare_realm in
  let set_immediate := call 2 (VFun (FShimSetImmediate 1)) in
  let clear_immediate := call 2 (VFun (FShimClearImmediate 0)) in
  let prog := h1 ← set_immediate [VFun (FHost 8)];
              h2 ← set_immediate [VFun (FHost 9)];
              clear_immediate [h1];;
              mret (h1, h2) in
  let h := next_handle s in
  (prog s).1 = Normal (VNum h, VNum (h + 1))
  ∧ timers (exec prog s) !! h = None
  ∧ timers (exec prog s) !! (h + 1) = Some (Timer (VFun (FHost 9)) 0 [])
  ∧ (∀ i, i ≠ h → i ≠ h + 1 → timers (exec prog s) !! i = timers s !! i)
  ∧ trace (exec prog s) = trace s.
Proof.
  apply (cancelling_one_keeps_the_other 1 0 0 (VFun (FHost 8)) (VFun (FHost 9))
           (exec setupTests bare_realm));
    by vm_compute.
Defined.


(** * The load on a global object that can refuse an assignment *)

Lemma ensure_clearImmediate_on_unfold (sh : shape) :
  ensure_clearImmediate_on sh
  = install_if_missing_on sh "clearImmediate" FShimClearImmediate.
Proof. reflexivity. Qed.

Lemma ensure_setImmediate_on_unfold (sh : shape) :
  ensure_setImmediate_on sh
  = install_if_missing_on sh "setImmediate" FShimSetImmediate.
Proof. reflexivity. Qed.

Lemma install_if_missing_on_guarded (sh : shape) (k : string) (mk : N → func)
    (s : realm) :
  install_if_missing_on sh k mk s = guarded_on sh k mk s.
Proof.
  unfold guarded_on. destruct s as [g o t h m p tr].
  unfold install_if_missing_on, assign_global_on, refuses, refused, installed,
    checked. js_run.
  case_decide; [| done]. cbn.
  destruct (g !! k); cbn.
  - case_bool_decide; cbn; [done | by rewrite <- app_assoc].
  - destruct (extensible sh); cbn; [by rewrite <- app_assoc | done].
Qed.

Lemma setupTests_on_missing (sh : shape) (s : realm) :
  packages s !! jest_dom = None →
  setupTests_on sh s = (Throw (ModuleNotFound jest_dom), import_failed s).
Proof.
  intros H. unfold setupTests_on.
  by rewrite (bind_throw _ _ _ _ _ (import_missing s H)).
Qed.

Lemma setupTests_on_loaded (sh : shape) (s : realm) (ms : gset string) :
  packages s !! jest_dom = Some ms →
  setupTests_on sh s
  = match guarded_on sh "clearImmediate" FShimClearImmediate (imported ms s) with
    | (Normal _, s1) => guarded_on sh "setImmediate" FShimSetImmediate s1
    | (Throw e, s1) => (Throw e, s1)
    end.
Proof.
  intros H. unfold setupTests_on.
  rewrite (bind_normal _ _ _ _ _ (import_found s ms H)).
  rewrite ensure_clearImmediate_on_unfold, ensure_setImmediate_on_unfold.
  unfold mbind at 1, js_bind at 1. rewrite install_if_missing_on_guarded.
  destruct (guarded_on sh "clearImmediate" FShimClearImmediate (imported ms s))
    as [[[]|e] s1]; [apply install_if_missing_on_guarded | done].
Qed.

Lemma refuses_imported (sh : shape) (k : string) (ms : gset string) (s : realm) :
  refuses sh k (imported ms s) = refuses sh k s.
Proof. by destruct s. Qed.

Lemma refuses_guarded_other (sh : shape) (k k' : string) (mk : N → func)
    (s : realm) :
  k ≠ k' → refuses sh k' (guarded k mk s) = refuses sh k' s.
Proof.
  intros Hne. unfold guarded, refuses. case_decide; destruct s; cbn; [| done].
  by rewrite lookup_insert_ne.
Qed.

Lemma guarded_on_accepted (sh : shape) (k : string) (mk : N → func) (s : realm) :
  ¬ (wants k s ∧ refuses sh k s = true) →
  guarded_on sh k mk s = (Normal tt, guarded k mk s).
Proof.
  intros Hok. unfold guarded_on, guarded, wants in *. case_decide; [| done].
  destruct (refuses sh k s); [by destruct Hok | done].
Qed.

Lemma guarded_on_refused (sh : shape) (k : string) (mk : N → func) (s : realm) :
  wants k s → refuses sh k s = true →
  guarded_on sh k mk s = (Throw TypeError, refused k s).
Proof.
  intros Hw Hr. unfold guarded_on, wants in *. by rewrite decide_True, Hr.
Qed.

(** The three ways a load on a global object of shape [sh] can go once the
    import has gone through. *)
Lemma setupTests_on_refused_first (sh : shape) (s : realm) (ms : gset string) :
  packages s !! jest_dom = Some ms →
  wants "clearImmediate" s → refuses sh "clearImmediate" s = true →
  setupTests_on sh s = (Throw TypeError, refused "clearImmediate" (imported ms s)).
Proof.
  intros Hp Hw Hr. rewrite (setupTests_on_loaded sh s ms Hp).
  rewrite guarded_on_refused; [done | | by rewrite refuses_imported].
  unfold wants. by rewrite get_global_imported.
Qed.

Lemma setupTests_on_refused_second (sh : shape) (s : realm) (ms : gset string) :
  packages s !! jest_dom = Some ms →
  ¬ (wants "clearImmediate" s ∧ refuses sh "clearImmediate" s = true) →
  wants "setImmediate" s → refuses sh "setImmediate" s = true →
  setupTests_on sh s
  = (Throw TypeError,
     refused "setImmediate"
       (guarded "clearImmediate" FShimClearImmediate (imported ms s))).
Proof.
  intros Hp Hc Hw Hr. rewrite (setupTests_on_loaded sh s ms Hp).
  rewrite guarded_on_accepted.
  - apply guarded_on_refused.
    + unfold wants. by rewrite guarded_other, get_global_imported.
    + by rewrite refuses_guarded_other, refuses_imported.
  - unfold wants. by rewrite get_global_imported, refuses_imported.
Qed.

(** On a global object that accepts the assignments the module makes, the
    load is the load on an ordinary object. *)
Lemma setupTests_on_accepting (sh : shape) (s : realm) :
  ¬ blocked sh s → setupTests_on sh s = setupTests s.
Proof.
  intros Hok.
  destruct (packages s !! jest_dom) as [ms|] eqn:Hp;
    [| by rewrite setupTests_on_missing, setupTests_missing].
  rewrite (setupTests_loaded s ms Hp), (setupTests_on_loaded sh s ms Hp).
  rewrite guarded_on_accepted.
  - apply guarded_on_accepted.
    unfold wants. rewrite guarded_other, get_global_imported by done.
    rewrite refuses_guarded_other, refuses_imported by done.
    intros H. apply Hok. by right.
  - unfold wants. rewrite get_global_imported, refuses_imported.
    intros H. apply Hok. by left.
Qed.

Lemma ordinary_accepts (s : realm) : ¬ blocked ordinary s.
Proof.
  unfold blocked, refuses. cbn.
  intros [[_ H] | [_ H]]; destruct (globals s !! _); cbn in H;
    try done; by apply bool_decide_eq_true in H.
Qed.

Lemma setupTests_on_ordinary (s : realm) : setupTests_on ordinary s = setupTests s.
Proof. apply setupTests_on_accepting, ordinary_accepts. Qed.

Lemma blocked_cases (sh : shape) (s : realm) :
  (wants "clearImmediate" s ∧ refuses sh "clearImmediate" s = true)
  ∨ (¬ (wants "clearImmediate" s ∧ refuses sh "clearImmediate" s = true)
     ∧ wants "setImmediate" s ∧ refuses sh "setImmediate" s = true)
  ∨ ¬ blocked sh s.
Proof.
  unfold blocked, wants.
  destruct (decide (typeof (get_global "clearImmediate" s) = "undefined"));
    destruct (refuses sh "clearImmediate" s);
    destruct (decide (typeof (get_global "setImmediate" s) = "undefined"));
    destruct (refuses sh "setImmediate" s); naive_solver.
Qed.

(** When a load on a global object of shape [sh] fails, and how. *)
Lemma load_on_fails (sh : shape) (s : realm) (e : error) :
  (setupTests_on sh s).1 = Throw e
  ↔ (packages s !! jest_dom = None ∧ e = ModuleNotFound jest_dom)
    ∨ (is_Some (packages s !! jest_dom) ∧ blocked sh s ∧ e = TypeError).
Proof.
  destruct (packages s !! jest_dom) as [ms|] eqn:Hp.
  - destruct (blocked_cases sh s) as [[Hw Hr] | [(Hc & Hw & Hr) | Hok]].
    + rewrite (setupTests_on_refused_first sh s ms Hp Hw Hr). cbn.
      unfold blocked. naive_solver.
    + rewrite (setupTests_on_refused_second sh s ms Hp Hc Hw Hr). cbn.
      unfold blocked. naive_solver.
    + rewrite (setupTests_on_accepting sh s Hok), (setupTests_loaded s ms Hp).
      cbn. naive_solver.
  - rewrite (setupTests_on_missing sh s Hp). cbn.
    split; [intros [= <-]; by left | intros [[_ ->] | [[? ?] _]]; done].
Qed.

(** ** Failure *)

(** C8, as the code has it: a load fails in exactly two ways.  The import
    fails because the package cannot be resolved: the failure is the abrupt
    completion of the load itself, after a single attempt at the import and
    with nothing installed in its place.  Or a guard finds its name undefined
    and the global object refuses the assignment (a property that is not
    writable, or an object that is not extensible): a TypeError, which is not
    caught either.  The guards complete normally exactly when no wanted
    assignment is refused, which is always so on an ordinary global
    object. *)
Theorem load_fails_on_import_or_refusal (sh : shape) (s : realm) :
  (∀ e, (setupTests_on sh s).1 = Throw e
        ↔ (packages s !! jest_dom = None ∧ e = ModuleNotFound jest_dom)
          ∨ (is_Some (packages s !! jest_dom) ∧ blocked sh s ∧ e = TypeError))
  ∧ (packages s !! jest_dom = None →
       observable (exec (setupTests_on sh) s) = observable s
       ∧ trace (exec (setupTests_on sh) s) = trace s ++ [EvImport jest_dom])
  ∧ (∀ s', ((ensure_clearImmediate_on sh;; ensure_setImmediate_on sh) s').1
           = Normal tt
           ↔ ¬ blocked sh s')
  ∧ (∀ s', ¬ blocked ordinary s')
  ∧ (∀ s', ((ensure_clearImmediate_on ordinary;; ensure_setImmediate_on ordinary) s').1
           = Normal tt).
Proof.
  assert (Hguards : ∀ sh' s',
    ((ensure_clearImmediate_on sh';; ensure_setImmediate_on sh') s').1 = Normal tt
    ↔ ¬ blocked sh' s').
  { intros sh' s'.
    rewrite ensure_clearImmediate_on_unfold, ensure_setImmediate_on_unfold.
    unfold mbind at 1, js_bind at 1. rewrite install_if_missing_on_guarded.
    destruct (blocked_cases sh' s') as [[Hw Hr] | [(Hc & Hw & Hr) | Hok]].
    - rewrite (guarded_on_refused _ _ _ _ Hw Hr). cbn.
      unfold blocked. naive_solver.
    - rewrite (guarded_on_accepted _ _ _ _ Hc).
      rewrite install_if_missing_on_guarded, guarded_on_refused; cbn.
      + unfold blocked. naive_solver.
      + unfold wants. by rewrite guarded_other.
      + by rewrite refuses_guarded_other.
    - rewrite guarded_on_accepted by (intros H; apply Hok; by left).
      rewrite install_if_missing_on_guarded, guarded_on_accepted; [done |].
      unfold wants. rewrite guarded_other, refuses_guarded_other by done.
      intros H. apply Hok. by right. }
  split_and!.
  - intros e. apply load_on_fails.
  - intros Hnone. unfold exec. rewrite (setupTests_on_missing sh s Hnone).
    by destruct s.
  - apply Hguards.
  - apply ordinary_accepts.
  - intros s'. apply Hguards, ordinary_accepts.
Qed.

(** C8, as the claim has it, fails: in a realm where the package resolves
    and [setImmediate] is a non-writable property that reads [undefined], the
    load fails at the second guard. *)
Lemma guard_fails_on_locked_global :
  is_Some (packages locked_realm !! jest_dom)
  ∧ (setupTests_on locked locked_realm).1 = Throw TypeError
  ∧ ((ensure_clearImmediate_on locked;; ensure_setImmediate_on locked) locked_realm).1
    = Throw TypeError
  ∧ typeof (get_global "setImmediate" (exec (setupTests_on locked) locked_realm))
    = "undefined".
Proof. split_and!; [by eexists | by vm_compute ..]. Qed.

(** ** What the guards leave behind *)

Lemma load_on_completes (sh : shape) (s : realm) :
  (setupTests_on sh s).1 = Normal tt →
  ∃ ms, packages s !! jest_dom = Some ms ∧ setupTests_on sh s = setupTests s.
Proof.
  intros Hn.
  destruct (packages s !! jest_dom) as [ms|] eqn:Hp;
    [| by rewrite (setupTests_on_missing sh s Hp) in Hn].
  exists ms. split; [done |].
  destruct (blocked_cases sh s) as [[Hw Hr] | [(Hc & Hw & Hr) | Hok]].
  - by rewrite (setupTests_on_refused_first sh s ms Hp Hw Hr) in Hn.
  - by rewrite (setupTests_on_refused_second sh s ms Hp Hc Hw Hr) in Hn.
  - by apply setupTests_on_accepting.
Qed.

(** X1: after a load that completes normally, neither [clearImmediate] nor
    [setImmediate] reads [undefined], whatever the realm and the shape of
    its global object were; but a name is a function afterwards only if it
    was undefined or a function before: the guards do not replace a value
    that is defined and cannot be called. *)
Theorem load_defines_both_names (sh : shape) (s : realm) (k : string) :
  (setupTests_on sh s).1 = Normal tt →
  k = "clearImmediate" ∨ k = "setImmediate" →
  typeof (get_global k (exec (setupTests_on sh) s)) ≠ "undefined"
  ∧ (typeof (get_global k (exec (setupTests_on sh) s)) = "function"
     ↔ typeof (get_global k s) = "undefined"
       ∨ typeof (get_global k s) = "function").
Proof.
  intros Hn Hk. destruct (load_on_completes sh s Hn) as (ms & Hp & Heq).
  unfold exec. rewrite Heq, (setupTests_loaded s ms Hp). cbn [snd].
  destruct Hk; subst k.
  - rewrite guarded_other by done. split; [apply guarded_defines |].
    rewrite guarded_function. by rewrite get_global_imported.
  - split; [apply guarded_defines |].
    rewrite guarded_function, guarded_other by done.
    by rewrite get_global_imported.
Qed.

Lemma load_defines_both_names_witness :
  typeof (get_global "setImmediate" (exec (setupTests_on sealed) native_realm))
  ≠ "undefined"
  ∧ (typeof (get_global "setImmediate" (exec (setupTests_on sealed) native_realm))
     = "function"
     ↔ typeof (get_global "setImmediate" native_realm) = "undefined"
       ∨ typeof (get_global "setImmediate" native_realm) = "function").
Proof.
  apply (load_defines_both_names sealed native_realm "setImmediate");
    [by vm_compute | by right].
Defined.

(** ** The realms a load on a refusing global object leaves alone *)

Lemma insert_shim_changes (g : gmap string value) (k : string) (f : func) :
  typeof (default VUndefined (g !! k)) = "undefined" → <[k := VFun f]> g ≠ g.
Proof.
  intros Hu Heq. assert (H : g !! k = Some (VFun f))
    by (rewrite <- Heq; apply lookup_insert_eq).
  by rewrite H in Hu.
Qed.

Lemma union_absorbs (m ms : gset string) : m ∪ ms = m ↔ ms ⊆ m.
Proof. set_solver. Qed.

(** X7: on a global object of any shape, a load changes nothing that code in
    the realm can tell exactly when it gets nothing done: the package does
    not resolve (the load fails at the import), or the package's matchers are
    already registered and every guard that is reached either finds its name
    defined or has its assignment refused. *)
Theorem load_is_noop_iff_idle (sh : shape) (s : realm) :
  visible (exec (setupTests_on sh) s) = visible s ↔ idle sh s.
Proof.
  unfold idle, exec.
  destruct (packages s !! jest_dom) as [ms|] eqn:Hp;
    [| rewrite (setupTests_on_missing sh s Hp); by destruct s].
  destruct (blocked_cases sh s) as [[Hw Hr] | [(Hc & Hw & Hr) | Hok]].
  - rewrite (setupTests_on_refused_first sh s ms Hp Hw Hr).
    destruct s as [g o t h m p tr]. unfold visible. cbn.
    rewrite <- union_absorbs. split; [intros [= ->]; naive_solver |].
    by intros (-> & _ & _).
  - rewrite (setupTests_on_refused_second sh s ms Hp Hc Hw Hr).
    unfold wants in *. unfold guarded.
    rewrite get_global_imported. case_decide as Hwc.
    + destruct s as [g o t h m p tr]. unfold visible, get_global in *. cbn in *.
      split.
      * intros [= Hg _]. by apply insert_shim_changes in Hg.
      * intros (_ & Hrc & _). destruct Hc. by split; [| apply Hrc].
    + destruct s as [g o t h m p tr]. unfold visible. cbn.
      rewrite <- union_absorbs. split; [intros [= ->]; naive_solver |].
      by intros (-> & _ & _).
  - rewrite (setupTests_on_accepting sh s Hok).
    assert (Hdc := guarded_defines "clearImmediate" FShimClearImmediate
                     (imported ms s)).
    assert (Hds := guarded_defines "setImmediate" FShimSetImmediate
                     (guarded "clearImmediate" FShimClearImmediate (imported ms s))).
    rewrite <- (guarded_other "setImmediate" "clearImmediate" FShimSetImmediate)
      in Hdc by done.
    destruct (guarded_frame "setImmediate" FShimSetImmediate
                (guarded "clearImmediate" FShimClearImmediate (imported ms s)))
      as (_ & _ & Hm & _).
    destruct (guarded_frame "clearImmediate" FShimClearImmediate (imported ms s))
      as (_ & _ & Hm' & _).
    rewrite Hm' in Hm. clear Hm'.
    assert (Hsettled : settled s ↔
              ms ⊆ matchers s ∧ ¬ wants "clearImmediate" s
              ∧ ¬ wants "setImmediate" s)
      by (unfold settled, wants; by rewrite Hp).
    split.
    + intros Hv. rewrite (setupTests_loaded s ms Hp) in Hv. cbn [snd] in Hv.
      set (s2 := guarded "setImmediate" FShimSetImmediate
                   (guarded "clearImmediate" FShimClearImmediate (imported ms s)))
        in *.
      assert (Hg : globals s2 = globals s) by (unfold visible in Hv; congruence).
      assert (Hmm : matchers s2 = matchers s) by (unfold visible in Hv; congruence).
      unfold get_global in Hdc, Hds. rewrite Hg in Hdc, Hds.
      rewrite Hm in Hmm.
      replace (matchers (imported ms s)) with (matchers s ∪ ms) in Hmm
        by by destruct s.
      apply union_absorbs in Hmm. unfold wants, get_global. naive_solver.
    + intros (Hms & Hc & Hs).
      assert (Hnc : ¬ wants "clearImmediate" s)
        by (intros Hw; apply Hok; left; auto).
      assert (Hns : ¬ wants "setImmediate" s)
        by (intros Hw; apply Hok; right; auto).
      assert (Ho : observable (exec setupTests s) = observable s)
        by (apply settled_load_is_noop, Hsettled; auto).
      unfold exec in Ho. unfold observable in Ho. unfold visible. congruence.
Qed.

(** ** Rebinding the target of a shim *)

(** X3: the shims do not capture the timeout primitives at load time.  When
    [setTimeout] is bound to another value after the load, a call of the
    installed [setImmediate] is the call of that value with the callback and
    the number zero; when that value is a function that returns [r], the
    call of [setImmediate] enters it, returns [r] and registers no timer with
    the host. *)
Theorem setImmediate_follows_rebinding (s : realm) (ms : gset string) (n : N)
    (r : result) (d : nat) (f : value) (extra : list value) :
  packages s !! jest_dom = Some ms →
  typeof (get_global "setImmediate" s) = "undefined" →
  let s2 := run [ALoad; AAssign "setTimeout" (VFun (FHostRet n r))] s in
  let c := call_ident (call (S (S (S d)))) "setImmediate" (f :: extra) s2 in
  c.1 = Normal (value_of_result r)
  ∧ trace c.2 = trace s2 ++ [EvInvoke n [f; VNum 0]]
  ∧ observable c.2 = observable s2
  ∧ ∀ v : value,
      let s3 := run [ALoad; AAssign "setTimeout" v] s in
      call_ident (call (S (S d))) "setImmediate" (f :: extra) s3
      = call (S d) v [f; VNum 0] s3.
Proof.
  intros Hp Hs. cbn zeta.
  destruct (load_installs_setImmediate s ms Hp Hs) as [_ [o Ho]].
  unfold run. cbn [foldl perform]. change (exec (attempt setupTests) s)
    with (exec setupTests s).
  set (s1 := exec setupTests s) in *. clearbody s1.
  assert (Hshim : ∀ v, globals (exec (assign_global "setTimeout" v) s1)
                         !! "setImmediate" = Some (VFun (FShimSetImmediate o))).
  { intros v. destruct s1; unfold exec; js_run. by rewrite lookup_insert_ne. }
  assert (Htarget : ∀ v, globals (exec (assign_global "setTimeout" v) s1)
                           !! "setTimeout" = Some v).
  { intros v. destruct s1; unfold exec; js_run. by rewrite lookup_insert_eq. }
  split_and!.
  4: { intros v. rewrite (call_ident_bound _ _ _ _ _ (Hshim v)). cbn [call].
       unfold setImmediate_shim.
       by rewrite (call_ident_bound _ _ _ _ _ (Htarget v)). }
  all: rewrite (call_ident_bound _ _ _ _ _ (Hshim _)); cbn [call];
    unfold setImmediate_shim;
    rewrite (call_ident_bound _ _ _ _ _ (Htarget _)); cbn [call].
  all: by destruct (exec (assign_global "setTimeout" (VFun (FHostRet n r))) s1).
Qed.

Lemma setImmediate_follows_rebinding_witness :
  let s2 := run [ALoad; AAssign "setTimeout" (VFun (FHostRet 7 (RStr "token")))]
              bare_realm in
  let c := call_ident (call 3) "setImmediate" [VFun (FHost 9); VStr "x"] s2 in
  c.1 = Normal (VStr "token")
  ∧ trace c.2 = trace s2 ++ [EvInvoke 7 [VFun (FHost 9); VNum 0]]
  ∧ observable c.2 = observable s2
  ∧ ∀ v : value,
      let s3 := run [ALoad; AAssign "setTimeout" v] bare_realm in
      call_ident (call 2) "setImmediate" [VFun (FHost 9); VStr "x"] s3
      = call 1 v [VFun (FHost 9); VNum 0] s3.
Proof.
  apply (setImmediate_follows_rebinding bare_realm
           {[ "toHaveTextContent"; "toBeInTheDocument" ]} 7%N (RStr "token") 0
           (VFun (FHost 9)) [VStr "x"]);
    by vm_compute.
Defined.

(** ** Cancelling twice *)

(** X11: cancelling is idempotent.  With the host's [clearTimeout] bound, a
    call of the installed [clearImmediate] with a number completes normally,
    and a second call with the same number changes nothing. *)
Theorem clearImmediate_twice_is_once (o : N) (d : nat) (h : Z)
    (extra : list value) (s : realm) :
  globals s !! "clearTimeout" = Some (VFun FClearTimeout) →
  let cancel := call (S (S d)) (VFun (FShimClearImmediate o)) (VNum h :: extra) in
  (cancel s).1 = Normal VUndefined
  ∧ cancel (exec cancel s) = (Normal VUndefined, exec cancel s).
Proof.
  intros Hb. cbn zeta. unfold exec.
  rewrite (clearImmediate_shim_call d o h extra s Hb). cbn [fst snd].
  split; [done |].
  rewrite clearImmediate_shim_call by by destruct s.
  f_equal. destruct s. cbn. by rewrite delete_delete_eq.
Qed.

Lemma clearImmediate_twice_is_once_witness :
  let s := exec (call 2 (VFun (FShimSetImmediate 1)) [VFun (FHost 9)])
             (exec setupTests bare_realm) in
  let cancel := call 2 (VFun (FShimClearImmediate 0)) [VNum 1] in
  (cancel s).1 = Normal VUndefined
  ∧ cancel (exec cancel s) = (Normal VUndefined, exec cancel s).
Proof.
  apply (clearImmediate_twice_is_once 0 0 1 []
           (exec (call 2 (VFun (FShimSetImmediate 1)) [VFun (FHost 9)])
              (exec setupTests bare_realm))).
  by vm_compute.
Defined.

(** ** Concrete runs on global objects that refuse *)

Example load_on_locked_global :
  setupTests_on locked locked_realm
  = (Throw TypeError,
     Realm (<["clearImmediate" := VFun (FShimClearImmediate 0)]>
              (globals locked_realm))
           2%N ∅ 1 {[ "toHaveTextContent"; "toBeInTheDocument" ]}
           (packages bare_realm)
           [EvImport jest_dom;
            EvTypeof "clearImmediate";
            EvAssign "clearImmediate" (VFun (FShimClearImmediate 0));
            EvTypeof "setImmediate"]).
Proof. by vm_compute. Qed.

Example load_on_sealed_global :
  (setupTests_on sealed bare_realm).1 = Throw TypeError
  ∧ globals (exec (setupTests_on sealed) bare_realm) = globals bare_realm
  ∧ (setupTests_on sealed native_realm).1 = Normal tt.
Proof. by vm_compute. Qed.
